(** * make_vcards: from a workspace member list to contact cards

    A shallow embedding of [make_vcards.py]: the bot filter and the
    tabular normalisation of the member list ([is_bot], [df_user_list]),
    the avatar fetcher ([skip_avatar], [url_to_data], [data_to_b64]), the
    contact card writer ([write_vcard]) and the daily cache
    ([_cachefile], [cached_user_list], [cache_user_list]).

    Conventions.
    - A Python [str] is the [string] of its UTF-8 bytes.  White space is
      what [str.isspace] takes for it; the case mappings [upper] and
      [lower] are those of the ASCII letters.
    - A value read from JSON is a [json]; an object keeps its items in
      insertion order, as a Python [dict] does.  Numbers are integers.
    - A Python exception is a constructor of [exn]; a call that may raise
      returns a [result].
    - The interpreter's surroundings (clock, files, directories, the
      answers of the operating system and of the network, the requests
      sent) are one record, [world], threaded through the calls that
      touch them. *)

From Stdlib Require Import List Bool Arith ZArith NArith Lia.
From Stdlib Require Import Strings.Ascii Strings.String Strings.Byte.
Import ListNotations.

Local Open Scope string_scope.
Local Open Scope list_scope.

(** ** Exceptions and results *)

Inductive exn : Type :=
| KeyError
| TypeError
| NameError
| AttributeError
| ValueError
| JSONDecodeError
| UnicodeDecodeError
| ConnectionError
| FileNotFoundError
| FileExistsError
| IsADirectoryError
| NotADirectoryError
| PermissionError
| BadRequest (status_code : Z).

Inductive result (A : Type) : Type :=
| Ok (a : A)
| Raise (e : exn).

Arguments Ok {A} a.
Arguments Raise {A} e.

Definition bind {A B : Type} (r : result A) (k : A -> result B) : result B :=
  match r with
  | Ok a => k a
  | Raise e => Raise e
  end.

Notation "x <- r ;; k" := (bind r (fun x => k))
  (at level 61, r at next level, right associativity).

Fixpoint mapM {A B : Type} (f : A -> result B) (l : list A) : result (list B) :=
  match l with
  | [] => Ok []
  | a :: l' => b <- f a ;; bs <- mapM f l' ;; Ok (b :: bs)
  end.

(** A list comprehension with a guard that may raise. *)
Fixpoint filterM {A : Type} (p : A -> result bool) (l : list A) : result (list A) :=
  match l with
  | [] => Ok []
  | a :: l' =>
      keep <- p a ;;
      rest <- filterM p l' ;;
      Ok (if keep then a :: rest else rest)
  end.

(** ** Strings, as Python handles them *)

Module Str.

Definition is_empty (s : string) : bool :=
  match s with EmptyString => true | String _ _ => false end.

Fixpoint drop (n : nat) (s : string) : string :=
  match n, s with
  | O, _ => s
  | S _, EmptyString => EmptyString
  | S n', String _ s' => drop n' s'
  end.

Fixpoint rev_onto (s acc : string) : string :=
  match s with
  | EmptyString => acc
  | String c s' => rev_onto s' (String c acc)
  end.

Definition rev (s : string) : string := rev_onto s EmptyString.

(** [s.startswith(pre)] *)
Fixpoint prefix (pre s : string) : bool :=
  match pre, s with
  | EmptyString, _ => true
  | String _ _, EmptyString => false
  | String a pre', String b s' => Ascii.eqb a b && prefix pre' s'
  end.

(** [sub in s] *)
Fixpoint contains (sub s : string) : bool :=
  if prefix sub s then true
  else match s with
       | EmptyString => false
       | String _ s' => contains sub s'
       end.

(** [s.replace(old, new)]: the occurrences of [old] are replaced from
    the left, without overlap.  [skip] counts the characters of an
    occurrence that are still to be passed over. *)
Fixpoint replace_from (old new s : string) (skip : nat) : string :=
  match s with
  | EmptyString => EmptyString
  | String c s' =>
      match skip with
      | S k => replace_from old new s' k
      | O =>
          if prefix old s
          then new ++ replace_from old new s' (String.length old - 1)
          else String c (replace_from old new s' 0)
      end
  end.

Fixpoint intersperse (new s : string) : string :=
  match s with
  | EmptyString => new
  | String c s' => new ++ String c (intersperse new s')
  end.

Definition replace (old new s : string) : string :=
  if is_empty old then intersperse new s else replace_from old new s 0.

(** White space is what [str.isspace] says it is.  Among the ASCII
    characters: the codes 9 to 13 and 28 to 32. *)
Definition is_space (c : ascii) : bool :=
  let n := nat_of_ascii c in
  ((9 <=? n)%nat && (n <=? 13)%nat) || ((28 <=? n)%nat && (n <=? 32)%nat).

(** Beyond ASCII, by the bytes of the character: U+0085 and U+00A0 ... *)
Definition two_byte_space (c1 c2 : ascii) : bool :=
  let n1 := nat_of_ascii c1 in
  let n2 := nat_of_ascii c2 in
  (n1 =? 194)%nat && ((n2 =? 133)%nat || (n2 =? 160)%nat).

(** ... and U+1680, U+2000 to U+200A, U+2028, U+2029, U+202F, U+205F
    and U+3000. *)
Definition three_byte_space (c1 c2 c3 : ascii) : bool :=
  let n1 := nat_of_ascii c1 in
  let n2 := nat_of_ascii c2 in
  let n3 := nat_of_ascii c3 in
  ((n1 =? 225)%nat && (n2 =? 154)%nat && (n3 =? 128)%nat)
  || ((n1 =? 226)%nat && (n2 =? 128)%nat
      && (((128 <=? n3)%nat && (n3 <=? 138)%nat)
          || (n3 =? 168)%nat || (n3 =? 169)%nat || (n3 =? 175)%nat))
  || ((n1 =? 226)%nat && (n2 =? 129)%nat && (n3 =? 159)%nat)
  || ((n1 =? 227)%nat && (n2 =? 128)%nat && (n3 =? 128)%nat).

(** The number of bytes of the white space character [s] starts with,
    or 0 when it starts with none. *)
Definition space_width (s : string) : nat :=
  match s with
  | EmptyString => 0
  | String c1 r1 =>
      if is_space c1 then 1
      else
        match r1 with
        | EmptyString => 0
        | String c2 r2 =>
            if two_byte_space c1 c2 then 2
            else
              match r2 with
              | EmptyString => 0
              | String c3 _ => if three_byte_space c1 c2 c3 then 3 else 0
              end
        end
  end.

(** [s.lstrip()]; [skip] counts the bytes of a white space character
    that are still to be passed over. *)
Fixpoint lstrip_from (skip : nat) (s : string) : string :=
  match s with
  | EmptyString => EmptyString
  | String _ s' =>
      match skip with
      | S k => lstrip_from k s'
      | O =>
          match space_width s with
          | O => s
          | S k => lstrip_from k s'
          end
      end
  end.

Definition lstrip (s : string) : string := lstrip_from 0 s.

(** Whether [s] is white space from end to end. *)
Fixpoint all_space_from (skip : nat) (s : string) : bool :=
  match s with
  | EmptyString => (skip =? 0)%nat
  | String _ s' =>
      match skip with
      | S k => all_space_from k s'
      | O =>
          match space_width s with
          | O => false
          | S k => all_space_from k s'
          end
      end
  end.

Definition all_space (s : string) : bool := all_space_from 0 s.

(** [s.rstrip()] *)
Fixpoint rstrip (s : string) : string :=
  match s with
  | EmptyString => EmptyString
  | String c s' => if all_space s then EmptyString else String c (rstrip s')
  end.

Definition strip (s : string) : string := rstrip (lstrip s).

(** [s.upper()] and [s.lower()], as far as the ASCII letters go: the
    other bytes are left as they are. *)
Definition upper_char (c : ascii) : ascii :=
  let n := nat_of_ascii c in
  if ((97 <=? n)%nat && (n <=? 122)%nat)%bool then ascii_of_nat (n - 32) else c.

Definition lower_char (c : ascii) : ascii :=
  let n := nat_of_ascii c in
  if ((65 <=? n)%nat && (n <=? 90)%nat)%bool then ascii_of_nat (n + 32) else c.

Fixpoint map (f : ascii -> ascii) (s : string) : string :=
  match s with
  | EmptyString => EmptyString
  | String c s' => String (f c) (map f s')
  end.

Definition upper : string -> string := map upper_char.
Definition lower : string -> string := map lower_char.

Definition newline : ascii := ascii_of_nat 10.
Definition nl : string := String newline EmptyString.

(** The lines of a text: the pieces that line feeds end, and what
    follows the last line feed when that is not empty. *)
Fixpoint lines (s : string) : list string :=
  match s with
  | EmptyString => []
  | String c s' =>
      if Ascii.eqb c newline then EmptyString :: lines s'
      else match lines s' with
           | [] => [String c EmptyString]
           | l :: ls => String c l :: ls
           end
  end.

End Str.

(** ** JSON values *)

Set Warnings "-register-all".

Inductive json : Type :=
| JNull
| JBool (b : bool)
| JNum (n : Z)
| JStr (s : string)
| JArr (items : list json)
| JObj (items : list (string * json)).

(** A [dict] with [str] keys, in insertion order. *)
Definition dict : Type := list (string * json).

Fixpoint dict_get (k : string) (d : dict) : option json :=
  match d with
  | [] => None
  | (k', v) :: d' => if String.eqb k k' then Some v else dict_get k d'
  end.

(** [d[k] = v]: an existing key keeps its place. *)
Fixpoint dict_set (k : string) (v : json) (d : dict) : dict :=
  match d with
  | [] => [(k, v)]
  | (k', v') :: d' =>
      if String.eqb k k' then (k', v) :: d' else (k', v') :: dict_set k v d'
  end.

Definition dict_update (d extra : dict) : dict :=
  fold_left (fun acc kv => dict_set (fst kv) (snd kv) acc) extra d.

Definition is_dict (j : json) : bool :=
  match j with JObj _ => true | _ => false end.

(** Python's truth value of a JSON value. *)
Definition truthy (j : json) : bool :=
  match j with
  | JNull => false
  | JBool b => b
  | JNum n => negb (Z.eqb n 0)
  | JStr s => negb (Str.is_empty s)
  | JArr l => match l with [] => false | _ => true end
  | JObj l => match l with [] => false | _ => true end
  end.

(** [j[k]] for a [str] key [k]. *)
Definition subscript (j : json) (k : string) : result json :=
  match j with
  | JObj d => match dict_get k d with Some v => Ok v | None => Raise KeyError end
  | _ => Raise TypeError
  end.

Definition eq_str (j : json) (s : string) : bool :=
  match j with JStr s' => String.eqb s' s | _ => false end.

(** ** The bot filter *)

Definition is_bot (member : json) : result bool :=
  flag <- subscript member "is_bot" ;;
  if truthy flag then Ok true
  else name <- subscript member "name" ;; Ok (eq_str name "slackbot").

(** The comprehension of [df_user_list]:
    [[m for m in members if ignore_bots and not is_bot(m)]]. *)
Definition filter_members (ignore_bots : bool) (members : list json)
  : result (list json) :=
  filterM (fun m => if ignore_bots then b <- is_bot m ;; Ok (negb b)
                    else Ok false) members.

(** ** Flattening the members: [json_normalize] *)

(** pandas' [_normalise_json]: the leaves of nested objects, each under
    the keys of its path joined by ["."]. *)
Definition new_key (key_string key : string) : string :=
  if Str.is_empty key_string then key else key_string ++ "." ++ key.

Fixpoint normalise_json (data : json) (key_string : string)
  (normalized_dict : dict) : dict :=
  match data with
  | JObj items =>
      (fix over_items (l : list (string * json)) (acc : dict) : dict :=
         match l with
         | [] => acc
         | (key, value) :: l' =>
             over_items l' (normalise_json value (new_key key_string key) acc)
         end) items normalized_dict
  | _ => dict_set key_string data normalized_dict
  end.

(** pandas' [_normalise_json_ordered]: the top-level leaves first, then
    the leaves of the nested objects. *)
Definition normalise_json_ordered (data : dict) : dict :=
  let top_dict := filter (fun kv => negb (is_dict (snd kv))) data in
  let nested_dict :=
    normalise_json (JObj (filter (fun kv => is_dict (snd kv)) data)) "" [] in
  dict_update top_dict nested_dict.

Definition simple_json_normalize (member : json) : dict :=
  match member with
  | JObj d => normalise_json_ordered d
  | _ => []
  end.

(** ** Data frames *)

(** A cell holds a JSON value or is missing ([NaN]). *)
Definition cell : Type := option json.

Definition isnull (c : cell) : bool :=
  match c with
  | None | Some JNull => true
  | Some _ => false
  end.

Definition notnull (c : cell) : bool := negb (isnull c).

(** Columns are positional and labelled, rows carry their index label. *)
Record DataFrame : Type := mkDataFrame {
  columns : list string;
  rows : list (nat * list cell)
}.

Definition add_key (acc : list string) (k : string) : list string :=
  if existsb (String.eqb k) acc then acc else acc ++ [k].

(** The columns of [DataFrame(records)]: the keys, by first appearance. *)
Definition union_keys (records : list dict) : list string :=
  fold_left (fun acc d => fold_left add_key (map fst d) acc) records [].

Definition frame_of_records (records : list dict) : DataFrame :=
  let cs := union_keys records in
  {| columns := cs;
     rows := combine (seq 0 (List.length records))
               (map (fun d => map (fun k => dict_get k d) cs) records) |}.

Definition json_normalize (members : list json) : DataFrame :=
  frame_of_records (map simple_json_normalize members).

(** The positions of the columns labelled [name]. *)
Fixpoint positions_from (i : nat) (name : string) (cs : list string) : list nat :=
  match cs with
  | [] => []
  | c :: cs' =>
      if String.eqb c name then i :: positions_from (S i) name cs'
      else positions_from (S i) name cs'
  end.

Definition positions (name : string) (cs : list string) : list nat :=
  positions_from 0 name cs.

Definition cell_at (i : nat) (row : list cell) : cell := nth i row None.

(** [df[cols]]: every column with one of the labels, in the order of
    [cols]; a label that no column has raises [KeyError]. *)
Definition select_positions (cs cols : list string) : result (list nat) :=
  pss <- mapM (fun c => match positions c cs with
                        | [] => Raise KeyError
                        | ps => Ok ps
                        end) cols ;;
  Ok (List.concat pss).

Definition getitem_cols (df : DataFrame) (cols : list string) : result DataFrame :=
  ps <- select_positions (columns df) cols ;;
  Ok {| columns := map (fun i => nth i (columns df) "") ps;
        rows := map (fun r => (fst r, map (fun i => cell_at i (snd r)) ps))
                    (rows df) |}.

(** [df.name]: the column labelled [name] as a series.  With several
    columns of that label pandas hands back a frame, and the comparisons
    and the boolean indexing [df_user_list] does next cannot align on the
    repeated label: that is taken as its [ValueError]. *)
Definition getattr_col (df : DataFrame) (name : string) : result (list cell) :=
  match positions name (columns df) with
  | [i] => Ok (map (fun r => cell_at i (snd r)) (rows df))
  | [] => Raise AttributeError
  | _ => Raise ValueError
  end.

(** [df[mask]] for a boolean series [mask] aligned with the rows. *)
Definition getitem_mask (df : DataFrame) (mask : list bool) : DataFrame :=
  {| columns := columns df;
     rows := map snd (filter fst (combine mask (rows df))) |}.

Definition reset_index (df : DataFrame) : DataFrame :=
  {| columns := columns df;
     rows := combine (seq 0 (List.length (rows df))) (map snd (rows df)) |}.

(** ** Cleaning the text columns *)

Definition values (col : list cell) : list json :=
  flat_map (fun c => match c with
                     | Some JNull | None => []
                     | Some v => [v]
                     end) col.

Definition is_bool (j : json) : bool :=
  match j with JBool _ => true | _ => false end.

Definition is_num (j : json) : bool :=
  match j with JNum _ => true | _ => false end.

(** [hasattr(x, 'str')] for a column [x]: pandas grants the string
    accessor to a column of strings, to an empty one and to one of mixed
    values, and refuses it to a column whose values are all booleans or
    all numbers. *)
Definition has_str (col : list cell) : bool :=
  match values col with
  | [] => true
  | vs => negb (forallb is_bool vs || forallb is_num vs)
  end.

(** One cell under [x.str.strip()]: a value that is no string is lost. *)
Definition strip_cell (c : cell) : cell :=
  match c with
  | Some (JStr s) => Some (JStr (Str.strip s))
  | _ => None
  end.

Definition column_at (df : DataFrame) (i : nat) : list cell :=
  map (fun r => cell_at i (snd r)) (rows df).

(** [df.apply(lambda x: x.str.strip() if hasattr(x, 'str') else x)] *)
Definition apply_strip (df : DataFrame) : DataFrame :=
  let flags := map (fun i => has_str (column_at df i))
                   (seq 0 (List.length (columns df))) in
  {| columns := columns df;
     rows := map (fun r =>
                    (fst r,
                     map (fun fc : bool * cell =>
                            if fst fc then strip_cell (snd fc) else snd fc)
                         (combine flags (snd r))))
                 (rows df) |}.

Definition blank_to_nan (c : cell) : cell :=
  match c with
  | Some (JStr EmptyString) => None
  | _ => c
  end.

(** [df.replace('', np.nan, inplace=True)] *)
Definition replace_empty (df : DataFrame) : DataFrame :=
  {| columns := columns df;
     rows := map (fun r => (fst r, map blank_to_nan (snd r))) (rows df) |}.

(** One cell of [df.title != ignore_key]. *)
Definition ne_str (key : string) (c : cell) : bool :=
  match c with
  | Some (JStr s) => negb (String.eqb s key)
  | _ => true
  end.

(** ** The normaliser *)

Definition rename_column (c : string) : string :=
  Str.replace "profile_" "" (Str.replace "." "_" c).

Definition rename_columns (df : DataFrame) : DataFrame :=
  {| columns := map rename_column (columns df); rows := rows df |}.

Definition cols (ignore_bots : bool) : list string :=
  ["first_name"; "last_name"; "real_name_normalized";
   "email"; "skype"; "phone"; "title";
   "image_1024"; "image_512"; "image_192"; "is_custom_image";
   "display_name_normalized";
   "tz";
   "id";
   "deleted"; "updated"]
  ++ (if ignore_bots then [] else ["bot_id"]).

(** What a [for] over a JSON value yields. *)
Definition iterate (j : json) : result (list json) :=
  match j with
  | JArr l => Ok l
  | JObj d => Ok (map (fun kv => JStr (fst kv)) d)
  | JStr s => Ok (map (fun c => JStr (String c EmptyString)) (list_ascii_of_string s))
  | _ => Raise TypeError
  end.

Definition df_user_list (json_data : json) (make_useful : bool)
  (ignore_key : string) (ignore_bots : bool) : result DataFrame :=
  members_value <- subscript json_data "members" ;;
  members <- iterate members_value ;;
  filtered_members <- filter_members ignore_bots members ;;
  let df := json_normalize filtered_members in
  let df := rename_columns df in
  if make_useful then
    df <- getitem_cols df (cols ignore_bots) ;;
    let df := apply_strip df in
    let df := replace_empty df in
    title <- getattr_col df "title" ;;
    let df := getitem_mask df (map (ne_str ignore_key) title) in
    real_name_normalized <- getattr_col df "real_name_normalized" ;;
    let df := getitem_mask df (map notnull real_name_normalized) in
    Ok (reset_index df)
  else Ok df.

(** [row[name]] for a row of [df]. *)
Definition row_field (df : DataFrame) (name : string) (row : nat * list cell)
  : result cell :=
  match positions name (columns df) with
  | [i] => Ok (cell_at i (snd row))
  | [] => Raise KeyError
  | _ => Raise ValueError
  end.


(** The part of [df_user_list] under [if make_useful:], after the
    columns were selected. *)
Definition clean_and_filter (df : DataFrame) (ignore_key : string)
  : result DataFrame :=
  let df := apply_strip df in
  let df := replace_empty df in
  title <- getattr_col df "title" ;;
  let df := getitem_mask df (map (ne_str ignore_key) title) in
  real_name_normalized <- getattr_col df "real_name_normalized" ;;
  let df := getitem_mask df (map notnull real_name_normalized) in
  Ok (reset_index df).

(** ** The avatar fetcher *)

Record response : Type := mkResponse {
  resp_url : string;          (* the address after redirects *)
  resp_ok : bool;
  resp_status_code : Z;
  resp_content : list byte;
  resp_json : result json     (* what [r.json()] gives *)
}.

Record date : Type := mkDate { year : nat; month : nat; day : nat }.

(** A call that the operating system may refuse. *)
Inductive os_call : Type :=
| OpenRead (path : string)      (* [open(path, "r", ...)] and the reading *)
| OpenWrite (path : string)     (* [open(path, "w", ...)], [open(path, 'wb')] *)
| Makedirs (path : string).     (* [os.makedirs(path, ...)] *)

(** The surroundings of a run.  [files] gives the text of each regular
    file, as reading it gives it, and [dirs] the directories, each under
    the name the program uses for it.  [refused] is the answer of the
    operating system to a call it does not carry out for a reason that
    [files] and [dirs] do not show: a parent directory that is missing or
    is a file, a name it does not take, rights that are lacking, bytes
    that are no text. *)
Record world : Type := mkWorld {
  utc_today : date;
  files : list (string * string);
  dirs : list string;
  refused : os_call -> option exn;
  web : string -> result response;
  sent : list string           (* the addresses requested so far *)
}.

Definition set_files (fs : list (string * string)) (w : world) : world :=
  {| utc_today := utc_today w; files := fs; dirs := dirs w;
     refused := refused w; web := web w; sent := sent w |}.

Definition set_dirs (ds : list string) (w : world) : world :=
  {| utc_today := utc_today w; files := files w; dirs := ds;
     refused := refused w; web := web w; sent := sent w |}.

Definition set_sent (l : list string) (w : world) : world :=
  {| utc_today := utc_today w; files := files w; dirs := dirs w;
     refused := refused w; web := web w; sent := l |}.

Fixpoint file_get (path : string) (fs : list (string * string)) : option string :=
  match fs with
  | [] => None
  | (p, text) :: fs' => if String.eqb path p then Some text else file_get path fs'
  end.

Fixpoint file_set (path text : string) (fs : list (string * string))
  : list (string * string) :=
  match fs with
  | [] => [(path, text)]
  | (p, t) :: fs' =>
      if String.eqb path p then (p, text) :: fs' else (p, t) :: file_set path text fs'
  end.

Definition isdir (path : string) (w : world) : bool :=
  existsb (String.eqb path) (dirs w).

Definition isfile (path : string) (w : world) : bool :=
  match file_get path (files w) with
  | Some _ => true
  | None => false
  end.

(** [os.path.exists(path)] *)
Definition os_path_exists (path : string) (w : world) : bool :=
  isfile path w || isdir path w.

(** [open(path, "w", ...)] and [open(path, 'wb')]: the file is created,
    or emptied when it is there. *)
Definition os_open_write (path : string) (w : world) : result world :=
  if Str.is_empty path then Raise FileNotFoundError
  else if isdir path w then Raise IsADirectoryError
  else
    match refused w (OpenWrite path) with
    | Some e => Raise e
    | None => Ok (set_files (file_set path "" (files w)) w)
    end.

(** [open(path, "r", encoding="utf-8")] followed by [read()]. *)
Definition os_open_read (path : string) (w : world) : result string :=
  if Str.is_empty path then Raise FileNotFoundError
  else if isdir path w then Raise IsADirectoryError
  else
    match refused w (OpenRead path) with
    | Some e => Raise e
    | None =>
        match file_get path (files w) with
        | Some text => Ok text
        | None => Raise FileNotFoundError
        end
    end.

(** [requests.get(url)] *)
Definition requests_get (url : string) (w : world) : result response * world :=
  (web w url, set_sent (sent w ++ [url]) w).

Definition default_avatar : string := "/a.slack-edge.com/df10d/img/avatars/ava_".

Definition skip_avatar (url : string) : bool :=
  if Str.contains default_avatar url then true else false.

(** The bytes of the picture, or [None]. *)
Definition url_to_data (url : string) (w : world)
  : result (option (list byte)) * world :=
  if skip_avatar url then (Ok None, w)
  else
    match requests_get url w with
    | (Raise e, w') => (Raise e, w')
    | (Ok r, w') =>
        if skip_avatar (resp_url r) then (Ok None, w')
        else (Ok (Some (resp_content r)), w')
    end.

(** ** Base64 *)

Local Open Scope N_scope.

Definition b64_alphabet : string :=
  "ABCDEFGHIJKLMNOPQRSTUVWXYZabcdefghijklmnopqrstuvwxyz0123456789+/".

Definition b64_pad : ascii := "="%char.

Definition b64_char (sextet : N) : ascii :=
  match String.get (N.to_nat sextet) b64_alphabet with
  | Some c => c
  | None => b64_pad
  end.

(** The four sextets of a 24-bit group, most significant first. *)
Definition sextets (n : N) : N * N * N * N :=
  (n / 262144, (n / 4096) mod 64, (n / 64) mod 64, n mod 64).

Definition group24 (b1 b2 b3 : byte) : N :=
  Byte.to_N b1 * 65536 + Byte.to_N b2 * 256 + Byte.to_N b3.

(** [base64.b64encode(data)], as RFC 4648 has it: three bytes give four
    characters, and a last group of one or two bytes is padded with
    ["="]. *)
Fixpoint b64encode_chars (data : list byte) : list ascii :=
  match data with
  | [] => []
  | [b1] =>
      let '(s1, s2, _, _) := sextets (group24 b1 x00 x00) in
      [b64_char s1; b64_char s2; b64_pad; b64_pad]
  | [b1; b2] =>
      let '(s1, s2, s3, _) := sextets (group24 b1 b2 x00) in
      [b64_char s1; b64_char s2; b64_char s3; b64_pad]
  | b1 :: b2 :: b3 :: rest =>
      let '(s1, s2, s3, s4) := sextets (group24 b1 b2 b3) in
      b64_char s1 :: b64_char s2 :: b64_char s3 :: b64_char s4
        :: b64encode_chars rest
  end.

Definition b64encode (data : list byte) : list byte :=
  map byte_of_ascii (b64encode_chars data).

(** Well-formed UTF-8 (RFC 3629), on the values of the bytes. *)
Definition between (lo hi n : N) : bool := (lo <=? n) && (n <=? hi).

Definition continuation (n : N) : bool := between 128 191 n.

Definition second_of_three (b1 b2 : N) : bool :=
  (N.eqb b1 224 && between 160 191 b2)
  || ((between 225 236 b1 || between 238 239 b1) && continuation b2)
  || (N.eqb b1 237 && between 128 159 b2).

Definition second_of_four (b1 b2 : N) : bool :=
  (N.eqb b1 240 && between 144 191 b2)
  || (between 241 243 b1 && continuation b2)
  || (N.eqb b1 244 && between 128 143 b2).

Fixpoint utf8_valid (bs : list N) : bool :=
  match bs with
  | [] => true
  | b1 :: r1 =>
      if b1 <=? 127 then utf8_valid r1
      else
        match r1 with
        | [] => false
        | b2 :: r2 =>
            if between 194 223 b1 then continuation b2 && utf8_valid r2
            else
              match r2 with
              | [] => false
              | b3 :: r3 =>
                  if second_of_three b1 b2 then continuation b3 && utf8_valid r3
                  else
                    match r3 with
                    | [] => false
                    | b4 :: r4 =>
                        second_of_four b1 b2 && continuation b3
                        && continuation b4 && utf8_valid r4
                    end
              end
        end
  end.

(** [data.decode("utf-8")]: the text whose UTF-8 form is [data]. *)
Definition decode_utf8 (data : list byte) : result string :=
  if utf8_valid (map Byte.to_N data) then Ok (string_of_list_byte data)
  else Raise UnicodeDecodeError.

Definition data_to_b64 (data : list byte) : result string :=
  encoded_string <- Ok (b64encode data) ;;
  encoded_string <- decode_utf8 encoded_string ;;
  Ok encoded_string.

(** *** Standard decoding

    The decoder the round trip is measured against follows RFC 4648,
    section 4: groups of four characters of the alphabet, the last one
    possibly padded. *)

Fixpoint index_from (i : N) (c : ascii) (s : string) : option N :=
  match s with
  | EmptyString => None
  | String c' s' => if Ascii.eqb c c' then Some i else index_from (i + 1) c s'
  end.

Definition b64_index (c : ascii) : option N := index_from 0 c b64_alphabet.

Definition N_to_byte (n : N) : byte :=
  match Byte.of_N (n mod 256) with
  | Some b => b
  | None => x00
  end.

Definition ungroup24 (n : N) : list byte :=
  [N_to_byte (n / 65536); N_to_byte (n / 256); N_to_byte n].

Definition join_sextets (s1 s2 s3 s4 : N) : N :=
  ((s1 * 64 + s2) * 64 + s3) * 64 + s4.

Definition decode_group (c1 c2 c3 c4 : ascii) (last : bool) : option (list byte) :=
  match b64_index c1, b64_index c2 with
  | Some s1, Some s2 =>
      match b64_index c3, b64_index c4 with
      | Some s3, Some s4 => Some (ungroup24 (join_sextets s1 s2 s3 s4))
      | Some s3, None =>
          if last && Ascii.eqb c4 b64_pad
          then Some (firstn 2 (ungroup24 (join_sextets s1 s2 s3 0)))
          else None
      | None, _ =>
          if last && Ascii.eqb c3 b64_pad && Ascii.eqb c4 b64_pad
          then Some (firstn 1 (ungroup24 (join_sextets s1 s2 0 0)))
          else None
      end
  | _, _ => None
  end.

Fixpoint standard_b64decode (s : string) : option (list byte) :=
  match s with
  | EmptyString => Some []
  | String c1 (String c2 (String c3 (String c4 rest))) =>
      match decode_group c1 c2 c3 c4 (Str.is_empty rest) with
      | None => None
      | Some bs =>
          match standard_b64decode rest with
          | None => None
          | Some more => Some (bs ++ more)
          end
      end
  | _ => None
  end.

Local Close Scope N_scope.

(** A character of the alphabet, or the padding sign. *)
Definition b64_symbol (c : ascii) : bool :=
  match b64_index c with
  | Some _ => true
  | None => Ascii.eqb c b64_pad
  end.

(** ** The contact card writer *)

Local Open Scope string_scope.

(** [os.path.splitext], POSIX flavour: the extension starts at the last
    dot of the last component, unless that component has leading dots
    only before it. *)
Fixpoint rfind_from (i : nat) (c : ascii) (s : string) (found : option nat)
  : option nat :=
  match s with
  | EmptyString => found
  | String c' s' =>
      rfind_from (S i) c s' (if Ascii.eqb c c' then Some i else found)
  end.

Definition rfind (c : ascii) (s : string) : option nat := rfind_from 0 c s None.

Fixpoint all_dots (s : string) : bool :=
  match s with
  | EmptyString => true
  | String c s' => Ascii.eqb c "."%char && all_dots s'
  end.

Definition splitext (p : string) : string * string :=
  match rfind "."%char p with
  | None => (p, EmptyString)
  | Some dotIndex =>
      let filenameIndex :=
        match rfind "/"%char p with
        | None => 0
        | Some sepIndex => S sepIndex
        end in
      if (filenameIndex <=? dotIndex)%nat
         && negb (all_dots (String.substring filenameIndex
                              (dotIndex - filenameIndex) p))
      then (String.substring 0 dotIndex p, Str.drop dotIndex p)
      else (p, EmptyString)
  end.

(** The token after [TYPE=], lines 162 to 166 of [write_vcard]. *)
Definition photo_ext (pic_url : string) : string :=
  let url_ext := snd (splitext pic_url) in
  if existsb (String.eqb url_ext) [".jpeg"; ".jpg"] then "JPEG"
  else Str.upper url_ext.

(** The module defines no [img_to_b64]: looking the name up raises. *)
Definition img_to_b64 (pic_url : string) : result string := Raise NameError.

(** What a statement hands to [f.write]: a [str] or [bytes]. *)
Inductive payload : Type :=
| Text (s : string)
| Data (b : list byte).

(** A run of statements over the file object [f], which [write_vcard]
    opens with ['wb']: from the bytes written so far to the exception
    that stopped the run, if any, and the bytes written then. *)
Definition writer : Type := string -> option exn * string.

(** [f.write(data)] on a binary file object: bytes are appended, a [str]
    is a [TypeError]. *)
Definition f_write (data : payload) : writer :=
  fun written =>
    match data with
    | Text _ => (Some TypeError, written)
    | Data b => (None, written ++ string_of_list_byte b)
    end.

Definition then_ (a b : writer) : writer :=
  fun written =>
    match a written with
    | (None, written') => b written'
    | stopped => stopped
    end.

Definition pass : writer := fun written => (None, written).

Definition raise (e : exn) : writer := fun written => (Some e, written).

Definition when (guard : bool) (body : writer) : writer :=
  if guard then body else pass.

Definition eval {A : Type} (r : result A) (k : A -> writer) : writer :=
  match r with
  | Ok a => k a
  | Raise e => raise e
  end.

Notation "a ;;; b" := (then_ a b) (at level 62, right associativity).

(** A field of a row: a [str], or [None] for [NaN]. *)
Definition field : Type := option string.

Definition pd_notnull (x : field) : bool :=
  match x with Some _ => true | None => false end.

(** ["{}".format(x)] *)
Definition fmt (x : field) : string :=
  match x with Some s => s | None => "nan" end.

Definition impp_prefix : string := "IMPP;X-SERVICE-TYPE=Skype;type=HOME;".

(** Lines 136 to 170: every argument of [f.write] is a [str]. *)
Definition write_vcard_body
  (first last full email tel skype title pic_url : field) : writer :=
  f_write (Text ("BEGIN:VCARD" ++ Str.nl ++ "VERSION:3.0" ++ Str.nl)) ;;;
  when (pd_notnull first && pd_notnull last && pd_notnull full)
    (f_write (Text ("FN:" ++ fmt full ++ Str.nl
                    ++ "N:" ++ fmt last ++ ";" ++ fmt first ++ ";;;" ++ Str.nl))) ;;;
  when (pd_notnull email)
    (f_write (Text ("EMAIL;TYPE=INTERNET;TYPE=HOME:" ++ fmt email ++ Str.nl))) ;;;
  when (pd_notnull tel)
    (f_write (Text ("TEL;PREF=1;TYPE=CELL:" ++ fmt tel ++ Str.nl))) ;;;
  when (pd_notnull skype)
    (f_write (Text impp_prefix) ;;;
     f_write (Text ("skype:" ++ fmt skype ++ Str.nl)) ;;;
     f_write (Text ("X-SKYPE:" ++ fmt skype ++ Str.nl))) ;;;
  when (pd_notnull title)
    (f_write (Text ("TITLE:" ++ fmt title ++ Str.nl))) ;;;
  when (pd_notnull pic_url)
    (f_write (Text "PHOTO;ENCODING=b;TYPE=") ;;;
     let ext := photo_ext (fmt pic_url) in
     eval (img_to_b64 (fmt pic_url))
       (fun b64 => f_write (Text (ext ++ ":" ++ b64 ++ Str.nl)))) ;;;
  f_write (Text ("END:VCARD" ++ Str.nl)).

(** [with open(filename, 'wb') as f: ...]: when [open] raises nothing is
    touched; otherwise the file is created or emptied, the body runs,
    and what was written stays in the file whether or not the body
    raised. *)
Definition write_vcard (filename : string)
  (first last full email tel skype title pic_url : field) (w : world)
  : option exn * world :=
  match os_open_write filename w with
  | Raise e => (Some e, w)
  | Ok w =>
      let '(stopped, written) :=
        write_vcard_body first last full email tel skype title pic_url "" in
      (stopped, set_files (file_set filename written (files w)) w)
  end.

Definition begins (pre : string) (line : string) : bool := Str.prefix pre line.

(** Whether a text has a line that begins with [pre]. *)
Definition has_line (pre text : string) : bool :=
  existsb (begins pre) (Str.lines text).

(** ** The daily cache *)

Definition digit (n : nat) : ascii := ascii_of_nat (48 + n mod 10).

Definition pad2 (n : nat) : string :=
  String (digit (n / 10)) (String (digit n) EmptyString).

Definition pad4 (n : nat) : string :=
  String (digit (n / 1000)) (String (digit (n / 100)) (pad2 n)).

(** [strftime("%Y-%m-%d")] *)
Definition strftime_ymd (d : date) : string :=
  pad4 (year d) ++ "-" ++ pad2 (month d) ++ "-" ++ pad2 (day d).

Definition ends_with_slash (s : string) : bool :=
  match Str.rev s with
  | String c _ => Ascii.eqb c "/"%char
  | EmptyString => false
  end.

(** [os.path.join(a, b)] *)
Definition os_path_join (a b : string) : string :=
  if Str.prefix "/" b then b
  else if Str.is_empty a || ends_with_slash a then a ++ b
  else a ++ "/" ++ b.

(** [os.makedirs(path, exist_ok=True)]: an empty path names nothing, a
    directory that is there is left alone, a regular file of that name
    is in the way. *)
Definition makedirs (path : string) (w : world) : option exn * world :=
  if Str.is_empty path then (Some FileNotFoundError, w)
  else if isdir path w then (None, w)
  else if isfile path w then (Some FileExistsError, w)
  else
    match refused w (Makedirs path) with
    | Some e => (Some e, w)
    | None => (None, set_dirs (dirs w ++ [path])%list w)
    end.

(** [cache_folder] is whatever value the caller passed. *)
Definition _cachefile (cache_folder : json) (w : world) : result string * world :=
  let today := strftime_ymd (utc_today w) in
  let cache_folder :=
    match cache_folder with JStr s => s | _ => "cache" end in
  match makedirs cache_folder w with
  | (Some e, w) => (Raise e, w)
  | (None, w) => (Ok (os_path_join cache_folder (today ++ ".json")), w)
  end.

Section Cache.

(** [json.loads] and [json.dumps] of the standard library. *)
Variable json_loads : string -> result json.
Variable json_dumps : json -> string.

(** Python's [None] is [JNull]. *)
Definition cached_user_list (cache_folder : json) (w : world)
  : result json * world :=
  match _cachefile cache_folder w with
  | (Raise e, w) => (Raise e, w)
  | (Ok cachefile, w) =>
      if negb (os_path_exists cachefile w) then (Ok JNull, w)
      else
        match os_open_read cachefile w with
        | Raise e => (Raise e, w)
        | Ok text => (json_loads text, w)
        end
  end.

Definition cache_user_list (json_data : json) (cache_folder : json) (w : world)
  : option exn * world :=
  match _cachefile cache_folder w with
  | (Raise e, w) => (Some e, w)
  | (Ok cachefile, w) =>
      match os_open_write cachefile w with
      | Raise e => (Some e, w)
      | Ok w =>
          (None, set_files (file_set cachefile (json_dumps json_data) (files w)) w)
      end
  end.

End Cache.

(** [get_user_list(api_key)].  The address is the one [requests] makes
    of [url] and [params], for a key of characters that need no
    escaping. *)
Definition users_list_url (api_key : string) : string :=
  "https://slack.com/api/users.list?token=" ++ api_key.

Definition get_user_list (api_key : string) (w : world) : result json * world :=
  match requests_get (users_list_url api_key) w with
  | (Raise e, w') => (Raise e, w')
  | (Ok r, w') =>
      if negb (resp_ok r) then (Raise (BadRequest (resp_status_code r)), w')
      else (resp_json r, w')
  end.

(** The folder [_cachefile] settles on, and the file it names there. *)
Definition folder_name (cache_folder : json) : string :=
  match cache_folder with JStr s => s | _ => "cache" end.

Definition todays_file (cache_folder : json) (w : world) : string :=
  os_path_join (folder_name cache_folder)
    (strftime_ymd (utc_today w) ++ ".json").

(** A date that prints with four, two and two digits. *)
Definition plausible (d : date) : Prop :=
  year d < 100 * 100 /\ month d < 100 /\ day d < 100.

(** ** Directories: [mkdir_p] *)

(** [os.makedirs(path)], without [exist_ok]: a path that is there
    already, as a directory or as a file, is a [FileExistsError], the
    [OSError] whose [errno] is [EEXIST]. *)
Definition os_makedirs (path : string) (w : world) : option exn * world :=
  if Str.is_empty path then (Some FileNotFoundError, w)
  else if isdir path w || isfile path w then (Some FileExistsError, w)
  else
    match refused w (Makedirs path) with
    | Some e => (Some e, w)
    | None => (None, set_dirs (dirs w ++ [path])%list w)
    end.

Definition mkdir_p (path : string) (w : world) : option exn * world :=
  match os_makedirs path w with
  | (None, w') => (None, w')
  | (Some exc, w') =>
      match exc with
      | FileExistsError => if isdir path w' then (None, w') else (Some exc, w')
      | _ => (Some exc, w')
      end
  end.

(** ** The script *)

(** The name of a card's file, lines 206 to 208: the folder and the
    name, in lower case, blanks and hyphens turned into underscores,
    brackets dropped. *)
Definition vcf_filename (dir_name real_name_normalized : string) : string :=
  let filename := dir_name ++ real_name_normalized ++ ".vcf" in
  let filename := Str.replace "-" "_" (Str.replace " " "_" (Str.lower filename)) in
  Str.replace ")" "" (Str.replace "(" "" filename).

(** What [s.replace(old, new)] does when [old] is the one character [c]. *)
Fixpoint subst_char (c : ascii) (new s : string) : string :=
  match s with
  | EmptyString => EmptyString
  | String x s' =>
      if Ascii.eqb c x then new ++ subst_char c new s'
      else String x (subst_char c new s')
  end.

(** What lines 207 and 208 do to a text. *)
Definition mangle (s : string) : string :=
  Str.replace ")" "" (Str.replace "(" ""
    (Str.replace "-" "_" (Str.replace " " "_" (Str.lower s)))).

Definition at_date (d : date) (w : world) : world :=
  {| utc_today := d; files := files w; dirs := dirs w;
     refused := refused w; web := web w; sent := sent w |}.

Section Script.

(** [json.loads], [json.dumps] and the key that [slack_creds] holds. *)
Variable json_loads : string -> result json.
Variable json_dumps : json -> string.
Variable API_KEY : string.

(** The body under [if __name__ == "__main__":], up to the statement
    that stops it: [dir_name] is a name the module never binds, so
    [mkdir_p(dir_name)] raises [NameError] and the loop over the rows is
    not reached. *)
Definition main (w : world) : option exn * world :=
  match cached_user_list json_loads (JStr "cache") w with
  | (Raise e, w) => (Some e, w)
  | (Ok json_data, w) =>
      let fetched :=
        if negb (truthy json_data) then
          match get_user_list API_KEY w with
          | (Raise e, w) => (Raise e, w)
          | (Ok json_data, w) =>
              match cache_user_list json_dumps json_data (JStr "cache") w with
              | (Some e, w) => (Raise e, w)
              | (None, w) => (Ok json_data, w)
              end
          end
        else (Ok json_data, w) in
      match fetched with
      | (Raise e, w) => (Some e, w)
      | (Ok json_data, w) =>
          match df_user_list json_data true "#ignore" true with
          | Raise e => (Some e, w)
          | Ok df => (Some NameError, w)
          end
      end
  end.

End Script.

(** ** Steps of the normaliser, named *)

(** A text that does not start with white space. *)
Definition clean_front (s : string) : Prop := Str.space_width s = 0.


(** The rows that go through the two filters. *)
Definition kept_rows (ignore_key : string) (it ir : nat) (df : DataFrame)
  : list (nat * list cell) :=
  filter (fun r => notnull (cell_at ir (snd r)))
    (filter (fun r => ne_str ignore_key (cell_at it (snd r)))
       (rows (replace_empty (apply_strip df)))).

(** The frame once the columns at [ps] were selected under the labels
    [sel], and a row [r0] of it once the text was cleaned. *)
Definition selected (sel : list string) (ps : list nat)
  (rows0 : list (nat * list cell)) : DataFrame :=
  {| columns := sel;
     rows := map (fun r => (fst r, map (fun i => cell_at i (snd r)) ps)) rows0 |}.


(** ** Sample data *)

Definition str (s : string) : json := JStr s.

Definition sample_profile (name title skype : string) : json :=
  JObj [("first_name", str "Ada"); ("last_name", str "Lovelace");
        ("real_name_normalized", str name);
        ("email", str " ada@example.org "); ("skype", str skype);
        ("phone", str ""); ("title", str title);
        ("image_1024", str "https://example.org/a.png");
        ("image_512", str "https://example.org/b.png");
        ("image_192", str "https://example.org/c.png");
        ("is_custom_image", JBool true);
        ("display_name_normalized", str "ada")].

Definition sample_member (name title skype : string) (bot : bool) : json :=
  JObj [("id", str "U1"); ("name", str "ada"); ("deleted", JBool false);
        ("tz", str "Europe/London");
        ("profile", sample_profile name title skype);
        ("is_bot", JBool bot); ("updated", JNum 1700000000)].




Definition sample_data : json :=
  JObj [("members",
         JArr [sample_member " Ada L " "boss" "ada.l" false;
               sample_member "Bob" "#ignore" "" false;
               sample_member "Helper" "x" "" true;
               sample_member "  " "x" "" false])].

Definition sample_frame : DataFrame :=
  Eval vm_compute in
    match df_user_list sample_data true "#ignore" true with
    | Ok df => df
    | Raise _ => {| columns := []; rows := [] |}
    end.



(** The refusals of a system with the working directory and, in it, the
    one directory [cache]: a file is opened in either of them and
    nowhere else, as no other directory is there. *)
Definition sample_refusals (c : os_call) : option exn :=
  match c with
  | OpenRead path | OpenWrite path =>
      let name := if Str.prefix "cache/" path then Str.drop 6 path else path in
      if Str.contains "/" name then Some FileNotFoundError else None
  | Makedirs _ => None
  end.

Definition sample_world : world :=
  {| utc_today := mkDate 2026 11 4;
     files := [("cache/2026-11-03.json", "[]");
               ("cache/2026-11-04.json", "{}")];
     dirs := ["cache"];
     refused := sample_refusals;
     web := fun _ => Raise ConnectionError;
     sent := [] |}.

(** A world where a regular file has the name of the cache folder, and
    a directory the name of today's file in another folder. *)
Definition blocked_world : world :=
  {| utc_today := mkDate 2026 11 4;
     files := [("cache", "")];
     dirs := ["dir"; "dir/2026-11-04.json"];
     refused := fun c =>
                  match c with
                  | OpenRead path | OpenWrite path | Makedirs path =>
                      if Str.prefix "cache/" path then Some NotADirectoryError
                      else None
                  end;
     web := fun _ => Raise ConnectionError;
     sent := [] |}.

(** Stand-ins for [json.dumps] and [json.loads] that know three
    values. *)
Definition sample_dumps (j : json) : string :=
  match j with
  | JNull => "null"
  | JArr [] => "[]"
  | JObj [] => "{}"
  | _ => "?"
  end.

Definition sample_loads (text : string) : result json :=
  if String.eqb text "null" then Ok JNull
  else if String.eqb text "[]" then Ok (JArr [])
  else if String.eqb text "{}" then Ok (JObj [])
  else Raise JSONDecodeError.

(** The characters of a text. *)
Definition chars (s : string) : list ascii := list_ascii_of_string s.

(** A world whose cache holds nothing for the day and whose requests
    are answered with [body]. *)
Definition answering_world (body : json) : world :=
  {| utc_today := mkDate 2026 11 4;
     files := [("cache/2026-11-04.json", "null")];
     dirs := ["cache"];
     refused := sample_refusals;
     web := fun _ => Ok {| resp_url := "https://slack.com/api/users.list";
                           resp_ok := true; resp_status_code := 200;
                           resp_content := []; resp_json := Ok body |};
     sent := [] |}.

(** * Properties *)

(** ** Strings *)

Lemma append_assoc (a b c : string) : (a ++ b) ++ c = a ++ (b ++ c).
Proof. induction a as [|x a IH]; simpl; [reflexivity | now rewrite IH]. Qed.

Lemma append_empty_r (a : string) : a ++ "" = a.
Proof. induction a as [|x a IH]; simpl; [reflexivity | now rewrite IH]. Qed.

(** ** The bot filter *)

Lemma filterM_false {A : Type} (l : list A) :
  filterM (fun _ => Ok false) l = Ok [].
Proof.
  induction l as [|a l IH]; simpl; [reflexivity|].
  rewrite IH. reflexivity.
Qed.



(** C1: the comprehension of [df_user_list] keeps a member when
    [ignore_bots and not is_bot(m)] holds, so a call that asks for the
    bots ([ignore_bots=False]) keeps no member at all, bot or not: the
    frame of a list with one ordinary member is empty, and the selection
    of the useful columns then raises [KeyError]. *)
Theorem include_bots_keeps_nobody :
  (forall members, filter_members false members = Ok [])
  /\ df_user_list
       (JObj [("members", JArr [sample_member "Ada L" "boss" "ada.l" false])])
       false "#ignore" false
     = Ok {| columns := []; rows := [] |}
  /\ df_user_list
       (JObj [("members", JArr [sample_member "Ada L" "boss" "ada.l" false;
                                sample_member "Helper" "bot" "" true])])
       true "#ignore" false
     = Raise KeyError.
Proof.
  split; [|split].
  - intros members. apply filterM_false.
  - reflexivity.
  - reflexivity.
Qed.

(** ** The contact card writer *)

Lemma file_get_set_same (path text : string) (fs : list (string * string)) :
  file_get path (file_set path text fs) = Some text.
Proof.
  induction fs as [|[p t] fs IH]; simpl.
  - now rewrite String.eqb_refl.
  - destruct (String.eqb path p) eqn:E; simpl; rewrite E; auto.
Qed.

Lemma file_get_set_other (path other text : string) (fs : list (string * string)) :
  other <> path ->
  file_get other (file_set path text fs) = file_get other fs.
Proof.
  intros Hne. induction fs as [|[p t] fs IH]; simpl.
  - apply String.eqb_neq in Hne. now rewrite Hne.
  - destruct (String.eqb path p) eqn:E; simpl.
    + apply String.eqb_eq in E; subst p.
      apply String.eqb_neq in Hne. now rewrite Hne.
    + now rewrite IH.
Qed.

(** The statements of [write_vcard] stop at the first of them, with
    nothing written. *)
Lemma write_vcard_body_stops
  (first last full email tel skype title pic_url : field) (written : string) :
  write_vcard_body first last full email tel skype title pic_url written
  = (Some TypeError, written).
Proof. reflexivity. Qed.

Lemma os_open_write_ok (path : string) (w w1 : world) :
  os_open_write path w = Ok w1 ->
  w1 = set_files (file_set path "" (files w)) w.
Proof.
  unfold os_open_write. intros H.
  destruct (Str.is_empty path); [discriminate|].
  destruct (isdir path w); [discriminate|].
  destruct (refused w (OpenWrite path)); [discriminate|].
  now inversion H.
Qed.

Lemma write_vcard_opened (filename : string)
  (first last full email tel skype title pic_url : field) (w w1 : world) :
  os_open_write filename w = Ok w1 ->
  write_vcard filename first last full email tel skype title pic_url w
  = (Some TypeError, set_files (file_set filename "" (files w1)) w1).
Proof. intros H. unfold write_vcard. rewrite H. reflexivity. Qed.

Lemma write_vcard_not_opened (filename : string)
  (first last full email tel skype title pic_url : field) (w : world) (e : exn) :
  os_open_write filename w = Raise e ->
  write_vcard filename first last full email tel skype title pic_url w
  = (Some e, w).
Proof. intros H. unfold write_vcard. rewrite H. reflexivity. Qed.

(** The file of a card that was opened is empty after the call. *)
Lemma write_vcard_leaves_no_text (filename : string)
  (first last full email tel skype title pic_url : field) (w w1 : world) :
  os_open_write filename w = Ok w1 ->
  file_get filename
    (files (snd (write_vcard filename first last full email tel skype title
                   pic_url w)))
  = Some "".
Proof.
  intros H. rewrite (write_vcard_opened _ _ _ _ _ _ _ _ _ _ _ H). simpl.
  apply file_get_set_same.
Qed.

(** C3, as stated, fails: there are file names that [open] does not
    open, the empty one, that of a directory and one in a directory
    that is not there among them; the call then stops with the error of
    [open], which is no [TypeError], and leaves no file behind. *)
Lemma write_vcard_without_a_file_to_open :
  let unnamed := write_vcard "" (Some "Ada") (Some "Lovelace")
                   (Some "Ada Lovelace") None None None None None sample_world in
  let folder := write_vcard "cache" (Some "Ada") (Some "Lovelace")
                  (Some "Ada Lovelace") None None None None None sample_world in
  let orphan := write_vcard "cards/ada_lovelace.vcf" (Some "Ada")
                  (Some "Lovelace") (Some "Ada Lovelace") None None None None
                  None sample_world in
  fst unnamed = Some FileNotFoundError
  /\ file_get "" (files (snd unnamed)) = None
  /\ fst folder = Some IsADirectoryError
  /\ file_get "cache" (files (snd folder)) = None
  /\ fst orphan = Some FileNotFoundError
  /\ file_get "cards/ada_lovelace.vcf" (files (snd orphan)) = None.
Proof. repeat split. Qed.

(** C3, amended: no call of [write_vcard] completes.  When [open]
    opens the file, the call stops with [TypeError] at its first write:
    the file named [filename] is left in place and empty, the other
    files and the directories as they were.  When [open] raises, the
    call stops with that error and nothing has changed. *)
Theorem write_vcard_raises_before_any_text :
  forall (filename : string)
         (first last full email tel skype title pic_url : field) (w : world),
    let r := write_vcard filename first last full email tel skype title pic_url w in
    fst r <> None
    /\ (forall w1, os_open_write filename w = Ok w1 ->
          fst r = Some TypeError
          /\ file_get filename (files (snd r)) = Some ""
          /\ (forall other, other <> filename ->
                file_get other (files (snd r)) = file_get other (files w))
          /\ dirs (snd r) = dirs w
          /\ sent (snd r) = sent w)
    /\ (forall e, os_open_write filename w = Raise e -> r = (Some e, w)).
Proof.
  intros. subst r. split; [|split].
  - unfold write_vcard. destruct (os_open_write filename w); simpl; discriminate.
  - intros w1 H. rewrite (write_vcard_opened _ _ _ _ _ _ _ _ _ _ _ H).
    apply os_open_write_ok in H. subst w1. simpl.
    repeat split.
    + apply file_get_set_same.
    + intros other Hne. now rewrite !file_get_set_other.
  - intros e H. now apply write_vcard_not_opened.
Qed.

Lemma write_vcard_raises_before_any_text_witness :
  let r := write_vcard "ada_lovelace.vcf" (Some "Ada") (Some "Lovelace")
             (Some "Ada Lovelace") (Some "ada@example.org") None (Some "ada.l")
             (Some "Analyst") (Some "https://example.org/pictures/ada.png")
             sample_world in
  fst r = Some TypeError /\ file_get "ada_lovelace.vcf" (files (snd r)) = Some "".
Proof.
  pose proof (write_vcard_raises_before_any_text "ada_lovelace.vcf"
                (Some "Ada") (Some "Lovelace") (Some "Ada Lovelace")
                (Some "ada@example.org") None (Some "ada.l") (Some "Analyst")
                (Some "https://example.org/pictures/ada.png") sample_world) as H.
  cbv zeta in H. destruct H as (_ & H & _).
  destruct (H _ eq_refl) as (H1 & H2 & _).
  split; [exact H1 | exact H2].
Defined.

(** ** Base64 *)

Section Base64.

Local Open Scope N_scope.

Lemma list_ind3 {A : Type} (P : list A -> Prop) :
  P [] ->
  (forall a, P [a]) ->
  (forall a b, P [a; b]) ->
  (forall a b c l, P l -> P (a :: b :: c :: l)) ->
  forall l, P l.
Proof.
  intros H0 H1 H2 H3 l.
  assert (H : P l /\ (forall a, P (a :: l)) /\ (forall a b, P (a :: b :: l))).
  { induction l as [|x l [IH0 [IH1 IH2]]].
    - auto.
    - repeat split; auto. }
  apply H.
Qed.

Lemma N_below_64 (P : N -> Prop) :
  (forall k : nat, (k < 64)%nat -> P (N.of_nat k)) ->
  forall n, n < 64 -> P n.
Proof.
  intros H n Hn. rewrite <- (N2Nat.id n). apply H. lia.
Qed.

Lemma b64_index_char (n : N) : n < 64 -> b64_index (b64_char n) = Some n.
Proof.
  revert n. apply N_below_64. intros k Hk.
  do 64 (destruct k as [|k]; [vm_compute; reflexivity|]).
  lia.
Qed.

Lemma b64_char_ascii (n : N) :
  n < 64 -> (Byte.to_N (byte_of_ascii (b64_char n)) <=? 127) = true.
Proof.
  revert n. apply N_below_64. intros k Hk.
  do 64 (destruct k as [|k]; [vm_compute; reflexivity|]).
  lia.
Qed.

Lemma b64_index_pad : b64_index b64_pad = None.
Proof. vm_compute. reflexivity. Qed.

Lemma group24_bound (b1 b2 b3 : byte) : group24 b1 b2 b3 < 16777216.
Proof.
  unfold group24.
  pose proof (Byte.to_N_bounded b1). pose proof (Byte.to_N_bounded b2).
  pose proof (Byte.to_N_bounded b3). lia.
Qed.

Lemma N_to_byte_to_N (b : byte) : N_to_byte (Byte.to_N b) = b.
Proof.
  unfold N_to_byte. pose proof (Byte.to_N_bounded b).
  rewrite N.mod_small by lia. now rewrite Byte.of_to_N.
Qed.

Lemma N_to_byte_mod (n : N) : N_to_byte (n mod 256) = N_to_byte n.
Proof. unfold N_to_byte. now rewrite N.Div0.mod_mod. Qed.

Lemma ungroup_value (n1 n2 n3 : N) :
  n1 <= 255 -> n2 <= 255 -> n3 <= 255 ->
  ungroup24 (n1 * 65536 + n2 * 256 + n3)
  = [N_to_byte n1; N_to_byte n2; N_to_byte n3].
Proof.
  intros H1 H2 H3. unfold ungroup24.
  rewrite <- (N_to_byte_mod ((n1 * 65536 + n2 * 256 + n3) / 256)).
  rewrite <- (N_to_byte_mod (n1 * 65536 + n2 * 256 + n3)).
  replace ((n1 * 65536 + n2 * 256 + n3) / 65536) with n1
    by (apply N.div_unique with (r := n2 * 256 + n3); lia).
  replace ((n1 * 65536 + n2 * 256 + n3) / 256) with (n1 * 256 + n2)
    by (apply N.div_unique with (r := n3); lia).
  replace ((n1 * 256 + n2) mod 256) with n2
    by (apply N.mod_unique with (q := n1); lia).
  replace ((n1 * 65536 + n2 * 256 + n3) mod 256) with n3
    by (apply N.mod_unique with (q := n1 * 256 + n2); lia).
  reflexivity.
Qed.

Lemma ungroup_group (b1 b2 b3 : byte) :
  ungroup24 (group24 b1 b2 b3) = [b1; b2; b3].
Proof.
  unfold group24.
  rewrite ungroup_value by apply Byte.to_N_bounded.
  now rewrite !N_to_byte_to_N.
Qed.

Lemma join_sextets_of (n : N) :
  join_sextets (n / 262144) ((n / 4096) mod 64) ((n / 64) mod 64) (n mod 64) = n.
Proof.
  unfold join_sextets.
  pose proof (N.Div0.div_mod n 64) as E1.
  pose proof (N.Div0.div_mod (n / 64) 64) as E2.
  pose proof (N.Div0.div_mod (n / 64 / 64) 64) as E3.
  rewrite !N.Div0.div_div in *.
  change (64 * 64) with 4096 in *. change (4096 * 64) with 262144 in *.
  lia.
Qed.

Lemma sextets_below (n : N) :
  n < 16777216 ->
  n / 262144 < 64 /\ (n / 4096) mod 64 < 64
  /\ (n / 64) mod 64 < 64 /\ n mod 64 < 64.
Proof.
  intros H. repeat split; try (apply N.mod_lt; discriminate).
  apply N.Div0.div_lt_upper_bound. exact H.
Qed.

(** The characters of one full group decode to its three bytes. *)
Lemma decode_group_full (b1 b2 b3 : byte) (last : bool) :
  let n := group24 b1 b2 b3 in
  decode_group (b64_char (n / 262144)) (b64_char ((n / 4096) mod 64))
               (b64_char ((n / 64) mod 64)) (b64_char (n mod 64)) last
  = Some [b1; b2; b3].
Proof.
  intros n.
  destruct (sextets_below n (group24_bound b1 b2 b3)) as (S1 & S2 & S3 & S4).
  unfold decode_group.
  rewrite !b64_index_char by assumption.
  rewrite join_sextets_of. subst n. now rewrite ungroup_group.
Qed.

Lemma decode_group_two (b1 b2 : byte) :
  let n := group24 b1 b2 x00 in
  decode_group (b64_char (n / 262144)) (b64_char ((n / 4096) mod 64))
               (b64_char ((n / 64) mod 64)) b64_pad true
  = Some [b1; b2].
Proof.
  intros n.
  destruct (sextets_below n (group24_bound b1 b2 x00)) as (S1 & S2 & S3 & S4).
  unfold decode_group.
  rewrite !b64_index_char by assumption. rewrite b64_index_pad.
  assert (E : n mod 64 = 0).
  { subst n. unfold group24. change (Byte.to_N x00) with 0.
    symmetry.
    apply N.mod_unique with (q := Byte.to_N b1 * 1024 + Byte.to_N b2 * 4); lia. }
  pose proof (join_sextets_of n) as J. rewrite E in J.
  change (Ascii.eqb b64_pad b64_pad) with true. cbn [andb].
  rewrite J. subst n. now rewrite ungroup_group.
Qed.

Lemma decode_group_one (b1 : byte) :
  let n := group24 b1 x00 x00 in
  decode_group (b64_char (n / 262144)) (b64_char ((n / 4096) mod 64))
               b64_pad b64_pad true
  = Some [b1].
Proof.
  intros n.
  destruct (sextets_below n (group24_bound b1 x00 x00)) as (S1 & S2 & S3 & S4).
  unfold decode_group.
  rewrite !b64_index_char by assumption. rewrite b64_index_pad.
  assert (E : n mod 64 = 0).
  { subst n. unfold group24. change (Byte.to_N x00) with 0.
    symmetry. apply N.mod_unique with (q := Byte.to_N b1 * 1024); lia. }
  assert (E3 : (n / 64) mod 64 = 0).
  { subst n. unfold group24. change (Byte.to_N x00) with 0.
    replace ((Byte.to_N b1 * 65536 + 0 * 256 + 0) / 64)
      with (Byte.to_N b1 * 1024)
      by (apply N.div_unique with (r := 0); lia).
    symmetry. apply N.mod_unique with (q := Byte.to_N b1 * 16); lia. }
  pose proof (join_sextets_of n) as J. rewrite E, E3 in J.
  change (Ascii.eqb b64_pad b64_pad) with true. cbn [andb].
  rewrite J. subst n. now rewrite ungroup_group.
Qed.

Lemma encode_nonempty (a b c : byte) (l : list byte) :
  Str.is_empty (string_of_list_ascii (b64encode_chars (a :: b :: c :: l)))
  = false.
Proof. reflexivity. Qed.

Lemma decode_encode_chars (data : list byte) :
  standard_b64decode (string_of_list_ascii (b64encode_chars data)) = Some data.
Proof.
  induction data as [| a | a b | a b c l IH] using list_ind3.
  - reflexivity.
  - cbn [b64encode_chars sextets string_of_list_ascii standard_b64decode Str.is_empty].
    now rewrite decode_group_one.
  - cbn [b64encode_chars sextets string_of_list_ascii standard_b64decode Str.is_empty].
    now rewrite decode_group_two.
  - cbn [b64encode_chars sextets string_of_list_ascii standard_b64decode].
    rewrite decode_group_full, IH. reflexivity.
Qed.

Lemma utf8_valid_ascii (bs : list N) :
  forallb (fun n => n <=? 127) bs = true -> utf8_valid bs = true.
Proof.
  induction bs as [|n bs IH]; simpl; [reflexivity|].
  intros H. apply andb_prop in H. destruct H as [Hn Hbs].
  rewrite Hn. auto.
Qed.

Lemma b64encode_ascii (data : list byte) :
  forallb (fun n => n <=? 127) (map Byte.to_N (b64encode data)) = true.
Proof.
  unfold b64encode.
  induction data as [| a | a b | a b c l IH] using list_ind3.
  - reflexivity.
  - destruct (sextets_below _ (group24_bound a x00 x00)) as (S1 & S2 & S3 & S4).
    cbn [b64encode_chars sextets map forallb].
    rewrite !b64_char_ascii by assumption. reflexivity.
  - destruct (sextets_below _ (group24_bound a b x00)) as (S1 & S2 & S3 & S4).
    cbn [b64encode_chars sextets map forallb].
    rewrite !b64_char_ascii by assumption. reflexivity.
  - destruct (sextets_below _ (group24_bound a b c)) as (S1 & S2 & S3 & S4).
    cbn [b64encode_chars sextets map forallb].
    rewrite !b64_char_ascii by assumption. rewrite IH. reflexivity.
Qed.

Lemma string_of_bytes_of_chars (cs : list ascii) :
  string_of_list_byte (map byte_of_ascii cs) = string_of_list_ascii cs.
Proof.
  unfold string_of_list_byte. rewrite map_map.
  f_equal. rewrite <- (map_id cs) at 2.
  apply map_ext. intros c. apply ascii_of_byte_of_ascii.
Qed.

(** C10: [data_to_b64] gives a text for every sequence of bytes, and
    decoding that text as standard Base64 gives the bytes back. *)
Theorem data_to_b64_round_trip :
  forall data : list byte,
    exists text : string,
      data_to_b64 data = Ok text
      /\ standard_b64decode text = Some data.
Proof.
  intros data. exists (string_of_list_ascii (b64encode_chars data)).
  split.
  - unfold data_to_b64, decode_utf8. simpl.
    rewrite utf8_valid_ascii by apply b64encode_ascii.
    simpl. unfold b64encode. now rewrite string_of_bytes_of_chars.
  - apply decode_encode_chars.
Qed.

End Base64.

(** ** The lines of a card *)

Section CardLines.

Local Open Scope string_scope.

(** C4: a [skype] value brings no [IMPP] and no [X-SKYPE] line into the
    card: the call stops with [TypeError] at the first write, before
    lines 151 to 154 are reached, and the file that was opened is left
    without any line. *)
Theorem skype_lines_are_never_written :
  forall (filename : string) (first last full email tel title pic_url : field)
         (s : string) (w w1 : world),
    os_open_write filename w = Ok w1 ->
    let r := write_vcard filename first last full email tel (Some s) title
               pic_url w in
    fst r = Some TypeError
    /\ exists text,
         file_get filename (files (snd r)) = Some text
         /\ text = ""
         /\ has_line "IMPP" text = false
         /\ has_line "X-SKYPE" text = false.
Proof.
  intros filename first last full email tel title pic_url s w w1 H r. subst r.
  split.
  - now rewrite (write_vcard_opened _ _ _ _ _ _ _ _ _ _ _ H).
  - exists "". rewrite (write_vcard_leaves_no_text _ _ _ _ _ _ _ _ _ _ _ H).
    repeat split.
Qed.

Lemma skype_lines_are_never_written_witness :
  let r := write_vcard "ada_lovelace.vcf" (Some "Ada") (Some "Lovelace")
             (Some "Ada Lovelace") None None (Some "ada.l") None None
             sample_world in
  fst r = Some TypeError
  /\ exists text,
       file_get "ada_lovelace.vcf" (files (snd r)) = Some text
       /\ text = ""
       /\ has_line "IMPP" text = false
       /\ has_line "X-SKYPE" text = false.
Proof.
  exact (skype_lines_are_never_written "ada_lovelace.vcf"
           (Some "Ada") (Some "Lovelace") (Some "Ada Lovelace") None None
           None None "ada.l" sample_world _ eq_refl).
Defined.

(** C7: first, last and full name all present bring no [FN] and no [N]
    line into the card: the call stops with [TypeError] at the first
    write, before line 139 is reached, and the file that was opened is
    left without any line. *)
Theorem name_lines_are_never_written :
  forall (filename : string) (a b c : string)
         (email tel skype title pic_url : field) (w w1 : world),
    os_open_write filename w = Ok w1 ->
    let r := write_vcard filename (Some a) (Some b) (Some c) email tel skype
               title pic_url w in
    fst r = Some TypeError
    /\ exists text,
         file_get filename (files (snd r)) = Some text
         /\ text = ""
         /\ has_line "FN:" text = false
         /\ has_line "N:" text = false.
Proof.
  intros filename a b c email tel skype title pic_url w w1 H r. subst r.
  split.
  - now rewrite (write_vcard_opened _ _ _ _ _ _ _ _ _ _ _ H).
  - exists "". rewrite (write_vcard_leaves_no_text _ _ _ _ _ _ _ _ _ _ _ H).
    repeat split.
Qed.

Lemma name_lines_are_never_written_witness :
  let r := write_vcard "ada_lovelace.vcf" (Some "Ada") (Some "Lovelace")
             (Some "Ada Lovelace") None None None None None sample_world in
  fst r = Some TypeError
  /\ exists text,
       file_get "ada_lovelace.vcf" (files (snd r)) = Some text
       /\ text = ""
       /\ has_line "FN:" text = false
       /\ has_line "N:" text = false.
Proof.
  exact (name_lines_are_never_written "ada_lovelace.vcf"
           "Ada" "Lovelace" "Ada Lovelace" None None None None None
           sample_world _ eq_refl).
Defined.

(** ** The avatar fetcher and the [PHOTO] line *)

Lemma prefix_app (sub post : string) : Str.prefix sub (sub ++ post) = true.
Proof.
  induction sub as [|c sub IH]; simpl; [reflexivity|].
  now rewrite Ascii.eqb_refl, IH.
Qed.

Lemma contains_prefix (sub s : string) :
  Str.prefix sub s = true -> Str.contains sub s = true.
Proof. intros H. destruct s; simpl; now rewrite H. Qed.

Lemma contains_infix (sub pre post : string) :
  Str.contains sub (pre ++ sub ++ post) = true.
Proof.
  induction pre as [|c pre IH]; simpl.
  - apply contains_prefix, prefix_app.
  - rewrite IH. now destruct (Str.prefix sub (String c (pre ++ sub ++ post))).
Qed.

(** An address with the path of the default pictures in it, given or
    reached by redirection, has no picture fetched from it. *)
Lemma url_to_data_default_avatar (url : string) (w : world) :
  (forall pre post, url = pre ++ default_avatar ++ post ->
     url_to_data url w = (Ok None, w))
  /\ (forall r pre post,
        web w url = Ok r ->
        resp_url r = pre ++ default_avatar ++ post ->
        fst (url_to_data url w) = Ok None).
Proof.
  split.
  - intros pre post ->. unfold url_to_data, skip_avatar.
    now rewrite contains_infix.
  - intros r pre post Hw Hr. unfold url_to_data, requests_get.
    destruct (skip_avatar url); [reflexivity|].
    rewrite Hw. unfold skip_avatar. rewrite Hr, contains_infix.
    reflexivity.
Qed.

(** C5: [url_to_data] gives [None] for an address that has the path of
    the default pictures in it, at once and without a request, and for
    an address that is redirected to such a one; and no call of
    [write_vcard] leaves a [PHOTO] line: the file it opened holds no line
    at all, and when it opened none nothing has changed. *)
Theorem default_avatar_gives_no_photo_line :
  (forall url w pre post,
      url = pre ++ default_avatar ++ post ->
      url_to_data url w = (Ok None, w))
  /\ (forall url w r pre post,
        web w url = Ok r ->
        resp_url r = pre ++ default_avatar ++ post ->
        fst (url_to_data url w) = Ok None)
  /\ (forall (filename : string)
             (first last full email tel skype title pic_url : field) (w : world),
        let r := write_vcard filename first last full email tel skype title
                   pic_url w in
        (forall w1, os_open_write filename w = Ok w1 ->
           exists text, file_get filename (files (snd r)) = Some text
                        /\ has_line "PHOTO" text = false)
        /\ (forall e, os_open_write filename w = Raise e -> snd r = w)).
Proof.
  split; [|split].
  - intros url w. apply (proj1 (url_to_data_default_avatar url w)).
  - intros url w. apply (proj2 (url_to_data_default_avatar url w)).
  - intros filename first last full email tel skype title pic_url w r. subst r.
    split.
    + intros w1 H. exists "".
      rewrite (write_vcard_leaves_no_text _ _ _ _ _ _ _ _ _ _ _ H).
      split; reflexivity.
    + intros e H. now rewrite (write_vcard_not_opened _ _ _ _ _ _ _ _ _ _ _ H).
Qed.

Lemma default_avatar_gives_no_photo_line_witness :
  let url := "https://a.slack-edge.com/df10d/img/avatars/ava_0012-512.png" in
  url_to_data url sample_world = (Ok None, sample_world)
  /\ exists text,
       file_get "ada_lovelace.vcf"
         (files (snd (write_vcard "ada_lovelace.vcf" (Some "Ada")
                        (Some "Lovelace") (Some "Ada Lovelace") None None None
                        None (Some url) sample_world)))
       = Some text
       /\ has_line "PHOTO" text = false.
Proof.
  destruct default_avatar_gives_no_photo_line as (H1 & _ & H3).
  split.
  - exact (H1 _ sample_world "https:/" "0012-512.png" eq_refl).
  - exact (proj1 (H3 "ada_lovelace.vcf" (Some "Ada") (Some "Lovelace")
                    (Some "Ada Lovelace") None None None None
                    (Some "https://a.slack-edge.com/df10d/img/avatars/ava_0012-512.png")
                    sample_world) _ eq_refl).
Defined.

(** C6: a picture address brings no [PHOTO] line into the card, so no
    [TYPE] token either: the call stops with [TypeError] at the first
    write, before lines 161 to 167 are reached.  The token those lines
    compute is [JPEG] for [.jpg] and [.jpeg], and for any other
    extension the extension in capitals with its dot: [.PNG] for
    [.png], not [PNG]. *)
Theorem photo_type_token_is_never_written :
  (forall (filename : string) (first last full email tel skype title : field)
          (url : string) (w w1 : world),
      os_open_write filename w = Ok w1 ->
      let r := write_vcard filename first last full email tel skype title
                 (Some url) w in
      fst r = Some TypeError
      /\ exists text,
           file_get filename (files (snd r)) = Some text
           /\ text = ""
           /\ has_line "PHOTO" text = false)
  /\ photo_ext "https://example.org/pictures/ada.png" = ".PNG"
  /\ photo_ext "https://example.org/pictures/ada.gif" = ".GIF"
  /\ photo_ext "https://example.org/pictures/ada.jpg" = "JPEG"
  /\ photo_ext "https://example.org/pictures/ada.jpeg" = "JPEG".
Proof.
  split; [|repeat split].
  intros filename first last full email tel skype title url w w1 H r. subst r.
  split.
  - now rewrite (write_vcard_opened _ _ _ _ _ _ _ _ _ _ _ H).
  - exists "". rewrite (write_vcard_leaves_no_text _ _ _ _ _ _ _ _ _ _ _ H).
    repeat split.
Qed.

Lemma photo_type_token_is_never_written_witness :
  let r := write_vcard "ada_lovelace.vcf" None None None None None None None
             (Some "https://example.org/pictures/ada.png") sample_world in
  fst r = Some TypeError
  /\ exists text,
       file_get "ada_lovelace.vcf" (files (snd r)) = Some text
       /\ text = ""
       /\ has_line "PHOTO" text = false.
Proof.
  exact (proj1 photo_type_token_is_never_written "ada_lovelace.vcf"
           None None None None None None None
           "https://example.org/pictures/ada.png" sample_world _ eq_refl).
Defined.

End CardLines.

(** ** The daily cache *)

Lemma ends_with_slash_join (a b : string) :
  a <> "" -> ends_with_slash a = false -> Str.prefix "/" b = false ->
  os_path_join a b = a ++ "/" ++ b.
Proof.
  intros Ha Hs Hb. unfold os_path_join. rewrite Hb, Hs.
  destruct a; [congruence | reflexivity].
Qed.

Lemma strftime_ymd_relative (d : date) (ext : string) :
  Str.prefix "/" (strftime_ymd d ++ ext) = false.
Proof.
  unfold strftime_ymd, pad4. cbn [append Str.prefix].
  unfold digit.
  assert (H : (year d / 1000 mod 10 < 10)%nat) by (apply Nat.mod_upper_bound; lia).
  destruct (year d / 1000 mod 10)%nat as [|k]; [reflexivity|].
  do 9 (destruct k as [|k]; [reflexivity|]). lia.
Qed.

Lemma append_same_l (a b : string) : a ++ b = a -> b = "".
Proof.
  induction a as [|c a IH]; simpl; intros H; [exact H|].
  inversion H. auto.
Qed.

Lemma append_not_empty (a b : string) : b <> "" -> Str.is_empty (a ++ b) = false.
Proof. intros H. destruct a; simpl; [destruct b; [contradiction | reflexivity] | reflexivity]. Qed.

Lemma strftime_ymd_json_not_empty (d : date) : strftime_ymd d ++ ".json" <> "".
Proof. unfold strftime_ymd, pad4. simpl. discriminate. Qed.

(** Today's file is below the folder: its name is the folder's and
    more. *)
Lemma todays_file_below (cache_folder : json) (w : world) :
  exists rest, rest <> ""
    /\ todays_file cache_folder w = folder_name cache_folder ++ rest.
Proof.
  unfold todays_file, os_path_join.
  rewrite strftime_ymd_relative.
  destruct (Str.is_empty (folder_name cache_folder)
            || ends_with_slash (folder_name cache_folder)).
  - eexists. split; [|reflexivity]. apply strftime_ymd_json_not_empty.
  - eexists. split; [|reflexivity]. discriminate.
Qed.

Lemma todays_file_not_folder (cache_folder : json) (w : world) :
  todays_file cache_folder w <> folder_name cache_folder.
Proof.
  destruct (todays_file_below cache_folder w) as (rest & Hr & E).
  rewrite E. intros H. apply append_same_l in H. contradiction.
Qed.

Lemma todays_file_not_empty (cache_folder : json) (w : world) :
  Str.is_empty (todays_file cache_folder w) = false.
Proof.
  destruct (todays_file_below cache_folder w) as (rest & Hr & E).
  rewrite E. now apply append_not_empty.
Qed.

(** What [os.makedirs(path, exist_ok=True)] leaves as it was. *)
Lemma makedirs_keeps (path : string) (w : world) :
  files (snd (makedirs path w)) = files w
  /\ sent (snd (makedirs path w)) = sent w
  /\ utc_today (snd (makedirs path w)) = utc_today w
  /\ refused (snd (makedirs path w)) = refused w
  /\ web (snd (makedirs path w)) = web w.
Proof.
  unfold makedirs.
  destruct (Str.is_empty path); [repeat split|].
  destruct (isdir path w); [repeat split|].
  destruct (isfile path w); [repeat split|].
  destruct (refused w (Makedirs path)); repeat split.
Qed.

Lemma isdir_after_add (path other : string) (w : world) :
  isdir other (set_dirs (dirs w ++ [path])%list w)
  = isdir other w || String.eqb other path.
Proof.
  unfold isdir. simpl. rewrite existsb_app. simpl.
  now rewrite orb_false_r.
Qed.

(** When it returns, the directory is there, and no other directory has
    come or gone. *)
Lemma makedirs_done (path : string) (w : world) :
  fst (makedirs path w) = None ->
  isdir path (snd (makedirs path w)) = true
  /\ forall other, other <> path ->
       isdir other (snd (makedirs path w)) = isdir other w.
Proof.
  unfold makedirs.
  destruct (Str.is_empty path); [discriminate|].
  destruct (isdir path w) eqn:D; [intros _; split; [exact D | reflexivity]|].
  destruct (isfile path w); [discriminate|].
  destruct (refused w (Makedirs path)); [discriminate|].
  intros _. simpl. split.
  - rewrite isdir_after_add, String.eqb_refl. apply orb_true_r.
  - intros other Hne. rewrite isdir_after_add.
    apply String.eqb_neq in Hne. rewrite Hne. apply orb_false_r.
Qed.

(** When it raises, nothing has changed. *)
Lemma makedirs_raises (path : string) (w : world) (e : exn) :
  fst (makedirs path w) = Some e -> snd (makedirs path w) = w.
Proof.
  unfold makedirs.
  destruct (Str.is_empty path); [reflexivity|].
  destruct (isdir path w); [discriminate|].
  destruct (isfile path w); [reflexivity|].
  destruct (refused w (Makedirs path)); [reflexivity | discriminate].
Qed.

Lemma cachefile_spec (cache_folder : json) (w : world) :
  _cachefile cache_folder w
  = match fst (makedirs (folder_name cache_folder) w) with
    | Some e => (Raise e, snd (makedirs (folder_name cache_folder) w))
    | None => (Ok (todays_file cache_folder w),
               snd (makedirs (folder_name cache_folder) w))
    end.
Proof.
  unfold _cachefile, todays_file, folder_name.
  destruct (makedirs _ w) as [[e|] w']; reflexivity.
Qed.

Lemma cached_user_list_spec (json_loads : string -> result json)
  (cache_folder : json) (w : world) :
  let w' := snd (makedirs (folder_name cache_folder) w) in
  let path := todays_file cache_folder w in
  cached_user_list json_loads cache_folder w
  = match fst (makedirs (folder_name cache_folder) w) with
    | Some e => (Raise e, w')
    | None =>
        if negb (os_path_exists path w') then (Ok JNull, w')
        else
          match os_open_read path w' with
          | Raise e => (Raise e, w')
          | Ok text => (json_loads text, w')
          end
    end.
Proof.
  cbv zeta. unfold cached_user_list. rewrite cachefile_spec.
  destruct (fst (makedirs (folder_name cache_folder) w)); reflexivity.
Qed.

(** Loading touches neither the files nor the network, whatever comes
    of it. *)
Lemma cached_user_list_keeps (json_loads : string -> result json)
  (cache_folder : json) (w : world) :
  let r := cached_user_list json_loads cache_folder w in
  snd r = snd (makedirs (folder_name cache_folder) w).
Proof.
  cbv zeta. rewrite cached_user_list_spec.
  destruct (fst (makedirs (folder_name cache_folder) w)); [reflexivity|].
  destruct (negb _); [reflexivity|].
  destruct (os_open_read _ _); reflexivity.
Qed.

(** What loading returns once [os.makedirs] went through. *)
Lemma cached_user_list_loads (json_loads : string -> result json)
  (cache_folder : json) (w : world) :
  let path := todays_file cache_folder w in
  fst (makedirs (folder_name cache_folder) w) = None ->
  fst (cached_user_list json_loads cache_folder w)
  = if isdir path w then Raise IsADirectoryError
    else
      match file_get path (files w) with
      | None => Ok JNull
      | Some text =>
          match refused w (OpenRead path) with
          | Some e => Raise e
          | None => json_loads text
          end
      end.
Proof.
  cbv zeta. intros Hm. rewrite cached_user_list_spec, Hm.
  destruct (makedirs_done _ _ Hm) as [_ Hd].
  destruct (makedirs_keeps (folder_name cache_folder) w) as (Hf & _ & _ & Hr & _).
  unfold os_path_exists, os_open_read, isfile.
  rewrite (Hd _ (todays_file_not_folder cache_folder w)), Hf, Hr.
  rewrite todays_file_not_empty.
  destruct (isdir (todays_file cache_folder w) w).
  - rewrite orb_true_r. reflexivity.
  - rewrite orb_false_r.
    destruct (file_get (todays_file cache_folder w) (files w)); [|reflexivity].
    simpl. destruct (refused w (OpenRead (todays_file cache_folder w))); reflexivity.
Qed.

(** C8, as stated, fails: where a regular file has the name of the
    cache folder, today's file is not there and [cached_user_list] does
    not return [None] but raises; and where today's path is a
    directory, it raises as well. *)
Lemma cached_user_list_with_the_folder_in_the_way :
  file_get "cache/2026-11-04.json" (files blocked_world) = None
  /\ cached_user_list (fun _ => Ok (JObj [])) (JStr "cache") blocked_world
     = (Raise FileExistsError, blocked_world)
  /\ fst (cached_user_list (fun _ => Ok (JObj [])) (JStr "dir") blocked_world)
     = Raise IsADirectoryError.
Proof. repeat split. Qed.

(** C8, amended: [cached_user_list] looks at today's file,
    [<folder>/<YYYY-MM-DD>.json] for a folder name that is not empty and
    does not end with a slash, the date being today's in UTC; it sends
    no request and changes no file; an error of [os.makedirs]
    propagates; and once [os.makedirs] went through, with today's path
    no directory and its reading not refused, it returns what
    [json.loads] makes of the file's text when the file is there and
    [None] when it is not. *)
Theorem cached_user_list_reads_todays_file :
  forall (json_loads : string -> result json) (cache_folder : json) (w : world),
    let folder := folder_name cache_folder in
    let path := todays_file cache_folder w in
    let r := cached_user_list json_loads cache_folder w in
    (folder <> "" -> ends_with_slash folder = false ->
     path = folder ++ "/" ++ strftime_ymd (utc_today w) ++ ".json")
    /\ sent (snd r) = sent w
    /\ files (snd r) = files w
    /\ utc_today (snd r) = utc_today w
    /\ (forall e, fst (makedirs folder w) = Some e -> r = (Raise e, w))
    /\ (fst (makedirs folder w) = None ->
        isdir path w = false ->
        refused w (OpenRead path) = None ->
        fst r = match file_get path (files w) with
                | Some text => json_loads text
                | None => Ok JNull
                end).
Proof.
  intros json_loads cache_folder w folder path r. subst folder path r.
  pose proof (cached_user_list_keeps json_loads cache_folder w) as K.
  cbv zeta in K.
  destruct (makedirs_keeps (folder_name cache_folder) w) as (Hf & Hs & Hu & _).
  split; [|split; [|split; [|split; [|split]]]].
  - intros Hne Hslash. unfold todays_file.
    apply ends_with_slash_join; [assumption | assumption|].
    apply strftime_ymd_relative.
  - now rewrite K.
  - now rewrite K.
  - now rewrite K.
  - intros e He. rewrite cached_user_list_spec, He.
    now rewrite (makedirs_raises _ _ _ He).
  - intros Hm Hd Hr. rewrite (cached_user_list_loads _ _ _ Hm), Hd, Hr.
    reflexivity.
Qed.

Lemma cached_user_list_reads_todays_file_witness :
  todays_file (JStr "cache") sample_world = "cache/2026-11-04.json"
  /\ fst (cached_user_list
            (fun text => if String.eqb text "{}" then Ok (JObj [])
                         else Raise JSONDecodeError)
            (JStr "cache") sample_world)
     = Ok (JObj [])
  /\ sent (snd (cached_user_list
                  (fun text => if String.eqb text "{}" then Ok (JObj [])
                               else Raise JSONDecodeError)
                  (JStr "cache") sample_world)) = [].
Proof.
  pose proof (cached_user_list_reads_todays_file
                (fun text => if String.eqb text "{}" then Ok (JObj [])
                             else Raise JSONDecodeError)
                (JStr "cache") sample_world) as H.
  cbv zeta in H. destruct H as (H0 & H1 & _ & _ & _ & H2).
  split; [|split].
  - exact (H0 ltac:(discriminate) eq_refl).
  - exact (H2 eq_refl eq_refl eq_refl).
  - exact H1.
Defined.

(** ** The normaliser *)

Section Normaliser.

Local Open Scope list_scope.

(** *** Trimming *)

Lemma lstrip_from_clean_front (skip : nat) (s : string) :
  clean_front (Str.lstrip_from skip s).
Proof.
  revert skip. induction s as [|c s IH]; intros skip; [reflexivity|].
  cbn [Str.lstrip_from]. destruct skip as [|k]; [|apply IH].
  destruct (Str.space_width (String c s)) eqn:E; [exact E | apply IH].
Qed.

Lemma lstrip_clean_front (s : string) : clean_front (Str.lstrip s).
Proof. apply lstrip_from_clean_front. Qed.

Lemma lstrip_of_clean_front (s : string) : clean_front s -> Str.lstrip s = s.
Proof.
  unfold clean_front, Str.lstrip. destruct s as [|c s]; [reflexivity|].
  cbn [Str.lstrip_from]. now intros ->.
Qed.

(** The white space character at the front of a text is at the front of
    every text that goes on from it. *)
Lemma space_width_app (a b : string) (k : nat) :
  Str.space_width a = S k -> Str.space_width (a ++ b)%string = S k.
Proof.
  unfold Str.space_width.
  destruct a as [|c1 a]; [discriminate|]. cbn [append].
  destruct (Str.is_space c1); [auto|].
  destruct a as [|c2 a]; [discriminate|]. cbn [append].
  destruct (Str.two_byte_space c1 c2); [auto|].
  destruct a as [|c3 a]; [discriminate|]. cbn [append]. auto.
Qed.

Lemma all_space_from_app (skip : nat) (a b : string) :
  Str.all_space_from skip a = true -> Str.all_space b = true ->
  Str.all_space_from skip (a ++ b)%string = true.
Proof.
  revert skip. induction a as [|c a IH]; intros skip Ha Hb.
  - cbn [Str.all_space_from] in Ha. apply Nat.eqb_eq in Ha. now subst skip.
  - cbn [append Str.all_space_from] in *. destruct skip as [|k]; [|now apply IH].
    destruct (Str.space_width (String c a)) as [|k] eqn:E; [discriminate|].
    change (String c (a ++ b)%string) with (String c a ++ b)%string.
    rewrite (space_width_app _ b _ E). now apply IH.
Qed.

(** What [rstrip] cuts off is white space. *)
Lemma rstrip_split (s : string) :
  exists t, s = (Str.rstrip s ++ t)%string /\ Str.all_space t = true.
Proof.
  induction s as [|c s IH]; [now exists ""|].
  cbn [Str.rstrip]. destruct (Str.all_space (String c s)) eqn:E.
  - now exists (String c s).
  - destruct IH as (t & Hs & Ht). exists t. split; [|exact Ht].
    cbn [append]. now rewrite <- Hs.
Qed.

Lemma rstrip_idempotent (s : string) : Str.rstrip (Str.rstrip s) = Str.rstrip s.
Proof.
  induction s as [|c s IH]; [reflexivity|].
  cbn [Str.rstrip]. destruct (Str.all_space (String c s)) eqn:E; [reflexivity|].
  cbn [Str.rstrip]. rewrite IH.
  destruct (Str.all_space (String c (Str.rstrip s))) eqn:E'; [|reflexivity].
  destruct (rstrip_split s) as (t & Hs & Ht).
  assert (H : Str.all_space (String c (Str.rstrip s) ++ t)%string = true)
    by (apply all_space_from_app; assumption).
  cbn [append] in H. rewrite <- Hs in H. congruence.
Qed.

Lemma rstrip_clean_front (s : string) : clean_front s -> clean_front (Str.rstrip s).
Proof.
  unfold clean_front. intros H.
  destruct (Str.space_width (Str.rstrip s)) as [|k] eqn:E; [reflexivity|].
  destruct (rstrip_split s) as (t & Hs & _).
  apply (space_width_app _ t) in E. rewrite <- Hs in E. congruence.
Qed.

Lemma strip_idempotent (s : string) : Str.strip (Str.strip s) = Str.strip s.
Proof.
  unfold Str.strip.
  rewrite (lstrip_of_clean_front (Str.rstrip (Str.lstrip s)))
    by apply rstrip_clean_front, lstrip_clean_front.
  apply rstrip_idempotent.
Qed.

(** *** Lists, masks and positions *)

Lemma mask_is_filter {A : Type} (f : A -> bool) (l : list A) :
  map snd (filter fst (combine (map f l) l)) = filter f l.
Proof.
  induction l as [|a l IH]; simpl; [reflexivity|].
  destruct (f a); simpl; now rewrite IH.
Qed.

Lemma cell_at_map (f : cell -> cell) (i : nat) (l : list cell) :
  f None = None -> cell_at i (map f l) = f (cell_at i l).
Proof.
  intros H. unfold cell_at. rewrite <- H at 1. apply map_nth.
Qed.

Lemma cell_at_nth_error (i : nat) (l : list cell) (c : cell) :
  nth_error l i = Some c -> cell_at i l = c.
Proof. intros H. unfold cell_at. now apply nth_error_nth. Qed.

Lemma cell_at_some (i : nat) (l : list cell) (v : json) :
  cell_at i l = Some v -> nth_error l i = Some (Some v).
Proof.
  unfold cell_at. revert i. induction l as [|c l IH]; intros [|i]; simpl;
    try discriminate.
  - now intros ->.
  - apply IH.
Qed.

Lemma nth_error_map_combine {A B C : Type} (g : A * B -> C)
  (la : list A) (lb : list B) (i : nat) (c : C) :
  nth_error (map g (combine la lb)) i = Some c ->
  exists a b, nth_error la i = Some a /\ nth_error lb i = Some b /\ g (a, b) = c.
Proof.
  revert lb i. induction la as [|a la IH]; intros [|b lb] [|i]; simpl;
    try discriminate.
  - intros [= <-]. now exists a, b.
  - apply IH.
Qed.

Lemma nth_error_flags {A : Type} (f : nat -> A) (n i : nat) (a : A) :
  nth_error (map f (seq 0 n)) i = Some a -> a = f i.
Proof.
  intros H. rewrite nth_error_map in H.
  destruct (nth_error (seq 0 n) i) as [j|] eqn:E; simpl in H; [|discriminate].
  injection H as <-.
  assert (Hi : i < n).
  { rewrite <- (length_seq n 0). apply nth_error_Some. congruence. }
  rewrite nth_error_nth' with (d := 0) in E by now rewrite length_seq.
  rewrite seq_nth in E by exact Hi. injection E as <-. reflexivity.
Qed.

(** *** The string accessor *)

Lemma in_values (col : list cell) (v : json) :
  In (Some v) col -> v <> JNull -> In v (values col).
Proof.
  intros Hin Hv. unfold values. apply in_flat_map.
  exists (Some v). split; [exact Hin|].
  destruct v; simpl; auto; congruence.
Qed.

Lemma has_str_of_string (col : list cell) (s : string) :
  In (Some (JStr s)) col -> has_str col = true.
Proof.
  intros Hin. apply in_values in Hin; [|discriminate].
  unfold has_str. destruct (values col) as [|v vs] eqn:E; [reflexivity|].
  rewrite <- E in *. clear E.
  apply negb_true_iff, orb_false_iff. split.
  - destruct (forallb is_bool (values col)) eqn:F; [|reflexivity].
    rewrite forallb_forall in F. apply F in Hin. discriminate.
  - destruct (forallb is_num (values col)) eqn:F; [|reflexivity].
    rewrite forallb_forall in F. apply F in Hin. discriminate.
Qed.

Lemma rows_cleaned (df : DataFrame) (r : nat * list cell) :
  In r (rows (replace_empty (apply_strip df))) ->
  exists cells,
    In (fst r, cells) (rows df)
    /\ snd r
       = map blank_to_nan
           (map (fun fc : bool * cell =>
                   if fst fc then strip_cell (snd fc) else snd fc)
              (combine (map (fun i => has_str (column_at df i))
                          (seq 0 (List.length (columns df))))
                       cells)).
Proof.
  unfold replace_empty, apply_strip. simpl. rewrite map_map. simpl.
  intros H. apply in_map_iff in H. destruct H as [[idx cells] [<- Hin]].
  exists cells. split; [exact Hin | reflexivity].
Qed.

(** A string in a cleaned row is trimmed and not empty. *)
Lemma cleaned_string (df : DataFrame) (r : nat * list cell) (i : nat) (s : string) :
  In r (rows (replace_empty (apply_strip df))) ->
  cell_at i (snd r) = Some (JStr s) ->
  s <> "" /\ Str.strip s = s.
Proof.
  intros Hr Hc. apply rows_cleaned in Hr. destruct Hr as (cells & Hin & Hsnd).
  rewrite Hsnd in Hc. rewrite cell_at_map in Hc by reflexivity.
  destruct (cell_at i (map _ (combine _ cells))) as [v|] eqn:E; [|discriminate].
  apply cell_at_some in E.
  apply nth_error_map_combine in E. destruct E as (flag & c & Hf & Hcell & Hg).
  apply nth_error_flags in Hf. simpl in Hg. subst flag.
  destruct (has_str (column_at df i)) eqn:Hs.
  - destruct c as [[| | |s0| |]|]; simpl in Hg; try discriminate.
    injection Hg as <-. simpl in Hc.
    destruct (Str.strip s0) eqn:Es; [discriminate|].
    injection Hc as <-. split; [discriminate|].
    rewrite <- Es. apply strip_idempotent.
  - subst c. destruct v as [| | |s0| |]; simpl in Hc; try discriminate.
    assert (Hin' : In (Some (JStr s0)) (column_at df i)).
    { unfold column_at. apply in_map_iff. exists (fst r, cells).
      split; [|exact Hin]. simpl. now apply cell_at_nth_error. }
    apply has_str_of_string in Hin'. congruence.
Qed.

(** *** The steps of [df_user_list] *)

Lemma bind_ok {A B : Type} (r : result A) (k : A -> result B) (b : B) :
  bind r k = Ok b -> exists a, r = Ok a /\ k a = Ok b.
Proof. destruct r as [a|e]; simpl; [|discriminate]. intros H. now exists a. Qed.

Lemma getattr_col_ok (df : DataFrame) (name : string) (col : list cell) :
  getattr_col df name = Ok col ->
  exists i, positions name (columns df) = [i] /\ col = column_at df i.
Proof.
  unfold getattr_col.
  destruct (positions name (columns df)) as [|i [|j ps]]; try discriminate.
  intros [= <-]. exists i. split; reflexivity.
Qed.

Lemma getattr_col_unique (df : DataFrame) (name : string) (i : nat) :
  positions name (columns df) = [i] -> getattr_col df name = Ok (column_at df i).
Proof. intros H. unfold getattr_col. now rewrite H. Qed.

Lemma map_snd_combine_seq {A : Type} (l : list A) :
  map snd (combine (seq 0 (List.length l)) l) = l.
Proof.
  generalize 0. induction l as [|a l IH]; intros n; simpl; [reflexivity|].
  now rewrite IH.
Qed.

Lemma rows_reset_index (df : DataFrame) :
  map snd (rows (reset_index df)) = map snd (rows df).
Proof.
  unfold reset_index. cbn [rows].
  rewrite <- (length_map snd (rows df)). apply map_snd_combine_seq.
Qed.

Lemma mask_of_column {A : Type} (f : cell -> bool) (i : nat)
  (rs : list (nat * list cell)) :
  map snd (filter fst (combine (map f (map (fun r => cell_at i (snd r)) rs)) rs))
  = filter (fun r => f (cell_at i (snd r))) rs.
Proof. rewrite map_map. apply mask_is_filter. Qed.

Lemma clean_and_filter_unique (df : DataFrame) (ignore_key : string) (it ir : nat) :
  positions "title" (columns df) = [it] ->
  positions "real_name_normalized" (columns df) = [ir] ->
  clean_and_filter df ignore_key
  = Ok (reset_index {| columns := columns df;
                       rows := kept_rows ignore_key it ir df |}).
Proof.
  intros Ht Hr. unfold clean_and_filter. cbv zeta.
  rewrite (getattr_col_unique _ _ it) by exact Ht. cbn [bind].
  rewrite (getattr_col_unique _ _ ir) by exact Hr. cbn [bind].
  unfold getitem_mask, column_at. cbn [columns rows].
  rewrite (mask_of_column (A := unit)).
  rewrite (mask_of_column (A := unit)).
  reflexivity.
Qed.

Lemma clean_and_filter_ok (df out : DataFrame) (ignore_key : string) :
  clean_and_filter df ignore_key = Ok out ->
  exists it ir,
    positions "title" (columns df) = [it]
    /\ positions "real_name_normalized" (columns df) = [ir]
    /\ out = reset_index {| columns := columns df;
                            rows := kept_rows ignore_key it ir df |}.
Proof.
  intros H. pose proof H as H0.
  unfold clean_and_filter in H0. cbv zeta in H0.
  apply bind_ok in H0. destruct H0 as (title & Ht & H0).
  apply bind_ok in H0. destruct H0 as (rnn & Hr & _).
  apply getattr_col_ok in Ht. destruct Ht as (it & Ht & _).
  apply getattr_col_ok in Hr. destruct Hr as (ir & Hr & _).
  cbn [columns replace_empty apply_strip getitem_mask] in Ht, Hr.
  rewrite (clean_and_filter_unique df ignore_key it ir Ht Hr) in H.
  injection H as <-. now exists it, ir.
Qed.

Lemma df_user_list_useful (json_data : json) (ignore_key : string) (ignore_bots : bool) :
  df_user_list json_data true ignore_key ignore_bots
  = (members_value <- subscript json_data "members" ;;
     members <- iterate members_value ;;
     filtered_members <- filter_members ignore_bots members ;;
     df <- getitem_cols (rename_columns (json_normalize filtered_members))
             (cols ignore_bots) ;;
     clean_and_filter df ignore_key).
Proof. reflexivity. Qed.

(** What the two filters leave in a frame. *)
Lemma clean_and_filter_rows (df out : DataFrame) (ignore_key : string)
  (row : nat * list cell) :
  clean_and_filter df ignore_key = Ok out ->
  In row (rows out) ->
  exists t r,
    row_field out "title" row = Ok t
    /\ t <> Some (JStr ignore_key)
    /\ row_field out "real_name_normalized" row = Ok r
    /\ notnull r = true
    /\ (forall s, r = Some (JStr s) -> s <> "" /\ Str.strip s = s).
Proof.
  intros H Hin. apply clean_and_filter_ok in H.
  destruct H as (it & ir & Ht & Hr & ->).
  unfold row_field. cbn [columns reset_index]. rewrite Ht, Hr.
  exists (cell_at it (snd row)), (cell_at ir (snd row)).
  assert (Hk : exists r0, In r0 (kept_rows ignore_key it ir df) /\ snd r0 = snd row).
  {    apply (in_map snd) in Hin. rewrite rows_reset_index in Hin. cbn [rows] in Hin.
    apply in_map_iff in Hin. destruct Hin as (r0 & E & Hr0). now exists r0. }
  destruct Hk as (r0 & Hr0 & <-).
  unfold kept_rows in Hr0.
  apply filter_In in Hr0. destruct Hr0 as [Hr0 Hnn].
  apply filter_In in Hr0. destruct Hr0 as [Hr0 Hne].
  split; [reflexivity|]. split; [|split; [reflexivity|split; [exact Hnn|]]].
  - intros E. rewrite E in Hne. simpl in Hne. now rewrite String.eqb_refl in Hne.
  - intros s E. eapply cleaned_string; eassumption.
Qed.

(** C2: every row of the frame [df_user_list] returns with
    [make_useful=True] has a title that is not the ignore key and a
    [real_name_normalized] that is not null; when that is a string, it is
    trimmed and not empty. *)
Theorem df_user_list_rows_are_named_and_not_ignored :
  forall (json_data : json) (ignore_key : string) (ignore_bots : bool)
         (df : DataFrame),
    df_user_list json_data true ignore_key ignore_bots = Ok df ->
    forall row, In row (rows df) ->
      exists title real_name_normalized : cell,
        row_field df "title" row = Ok title
        /\ title <> Some (JStr ignore_key)
        /\ row_field df "real_name_normalized" row = Ok real_name_normalized
        /\ notnull real_name_normalized = true
        /\ (forall s, real_name_normalized = Some (JStr s) ->
              s <> "" /\ Str.strip s = s).
Proof.
  intros json_data ignore_key ignore_bots df H row Hin.
  rewrite df_user_list_useful in H.
  apply bind_ok in H. destruct H as (mv & _ & H).
  apply bind_ok in H. destruct H as (ms & _ & H).
  apply bind_ok in H. destruct H as (kept & _ & H).
  apply bind_ok in H. destruct H as (df1 & _ & H).
  eapply clean_and_filter_rows; eassumption.
Qed.

(** *** Selecting the columns *)

Lemma positions_from_spec (name : string) (cs : list string) (n i : nat) :
  In i (positions_from n name cs) <-> n <= i /\ nth_error cs (i - n) = Some name.
Proof.
  revert n. induction cs as [|c cs IH]; intros n; simpl.
  - split; [tauto|]. intros [_ H]. destruct (i - n); discriminate.
  - assert (Hstep : In i (positions_from (S n) name cs) <->
                    n < i /\ nth_error (c :: cs) (i - n) = Some name).
    { rewrite IH. split; intros [Hle H]; split; try lia.
      - replace (i - n) with (S (i - S n)) by lia. exact H.
      - replace (i - n) with (S (i - S n)) in H by lia. exact H. }
    destruct (String.eqb c name) eqn:E.
    + apply String.eqb_eq in E. subst c. simpl. rewrite Hstep.
      split.
      * intros [<-|[Hlt H]]; [|split; [lia | exact H]].
        split; [lia|]. now rewrite Nat.sub_diag.
      * intros [Hle H]. destruct (Nat.eq_dec n i) as [->|Hne]; [now left|].
        right. split; [lia | exact H].
    + rewrite Hstep. apply String.eqb_neq in E. split.
      * intros [Hlt H]. split; [lia | exact H].
      * intros [Hle H]. split; [|exact H].
        destruct (Nat.eq_dec n i) as [->|Hne]; [|lia].
        rewrite Nat.sub_diag in H. simpl in H. congruence.
Qed.

Lemma positions_spec (name : string) (cs : list string) (i : nat) :
  In i (positions name cs) <-> nth_error cs i = Some name.
Proof.
  unfold positions. rewrite positions_from_spec, Nat.sub_0_r.
  split; [tauto | intros H; split; [lia | exact H]].
Qed.



(** *** The frame of the members *)





























Lemma getitem_cols_ok (df0 df1 : DataFrame) (sel : list string) :
  getitem_cols df0 sel = Ok df1 ->
  exists ps,
    select_positions (columns df0) sel = Ok ps
    /\ df1 = {| columns := map (fun i => nth i (columns df0) "") ps;
                rows := map (fun r => (fst r, map (fun i => cell_at i (snd r)) ps))
                            (rows df0) |}.
Proof.
  unfold getitem_cols. intros H. apply bind_ok in H.
  destruct H as (ps & Hps & [= <-]). now exists ps.
Qed.



End Normaliser.

Lemma df_user_list_rows_are_named_and_not_ignored_witness :
  exists title real_name_normalized : cell,
    row_field sample_frame "title" (hd (0, []) (rows sample_frame)) = Ok title
    /\ title <> Some (JStr "#ignore")
    /\ row_field sample_frame "real_name_normalized"
         (hd (0, []) (rows sample_frame)) = Ok real_name_normalized
    /\ notnull real_name_normalized = true
    /\ (forall s, real_name_normalized = Some (JStr s) ->
          s <> "" /\ Str.strip s = s).
Proof.
  apply (df_user_list_rows_are_named_and_not_ignored
           sample_data "#ignore" true sample_frame).
  - vm_compute. reflexivity.
  - left. reflexivity.
Defined.



(** * Further properties *)

(** ** The bot filter and the members that break it *)

Section MoreNormaliser.

Local Open Scope list_scope.

Lemma filterM_raises {A : Type} (p : A -> result bool) (l : list A) (a : A) :
  In a l -> (exists e, p a = Raise e) -> exists e, filterM p l = Raise e.
Proof.
  induction l as [|x l IH]; intros Hin Hp; [destruct Hin|].
  simpl. destruct (p x) as [b|e] eqn:Ex; [|now exists e].
  destruct Hin as [->|Hin].
  - destruct Hp as [e He]. congruence.
  - destruct (IH Hin Hp) as [e He]. rewrite He. simpl. now exists e.
Qed.

(** X1: with [ignore_bots] set, one member for which [is_bot] raises (an
    entry that is no object, or an object without the [is_bot] key, or one
    with a false flag and no [name]) makes [df_user_list] raise, whatever
    the other members are. *)
Theorem one_broken_member_stops_df_user_list :
  forall (json_data : json) (members : list json) (m : json)
         (make_useful : bool) (ignore_key : string) (e : exn),
    subscript json_data "members" = Ok (JArr members) ->
    In m members ->
    is_bot m = Raise e ->
    exists e', df_user_list json_data make_useful ignore_key true = Raise e'.
Proof.
  intros json_data members m make_useful ignore_key e Hsub Hin Hbot.
  unfold df_user_list. rewrite Hsub. cbn [bind iterate].
  destruct (filterM_raises
              (fun m => b <- is_bot m ;; Ok (negb b)) members m Hin) as [e' He'].
  - exists e. now rewrite Hbot.
  - unfold filter_members. rewrite He'. now exists e'.
Qed.

Lemma one_broken_member_stops_df_user_list_witness :
  exists e',
    df_user_list
      (JObj [("members",
              JArr [sample_member "Ada L" "boss" "ada.l" false;
                    JObj [("id", JStr "U9"); ("name", JStr "nobody")]])])
      true "#ignore" true
    = Raise e'.
Proof.
  apply (one_broken_member_stops_df_user_list
           _ [sample_member "Ada L" "boss" "ada.l" false;
              JObj [("id", JStr "U9"); ("name", JStr "nobody")]]
           (JObj [("id", JStr "U9"); ("name", JStr "nobody")])
           true "#ignore" KeyError).
  - reflexivity.
  - right. left. reflexivity.
  - reflexivity.
Defined.

(** X2: [is_bot] of an object says yes exactly when the flag is there and
    is true, or is there, false, and the name is [slackbot]; it raises
    exactly when the flag is missing, or false with the name missing: a
    member with a true flag needs no name. *)
Theorem is_bot_of_object :
  forall d : dict,
    (is_bot (JObj d) = Ok true <->
     exists flag, dict_get "is_bot" d = Some flag
                  /\ (truthy flag = true
                      \/ dict_get "name" d = Some (JStr "slackbot")))
    /\ ((exists e, is_bot (JObj d) = Raise e) <->
        dict_get "is_bot" d = None
        \/ exists flag, dict_get "is_bot" d = Some flag
                        /\ truthy flag = false /\ dict_get "name" d = None)
    /\ (forall e, is_bot (JObj d) = Raise e -> e = KeyError).
Proof.
  intros d. unfold is_bot, subscript.
  destruct (dict_get "is_bot" d) as [flag|] eqn:Ef; cbn [bind].
  - destruct (truthy flag) eqn:Et.
    + split; [|split].
      * split; [intros _; exists flag; auto | reflexivity].
      * split; [intros [e He]; discriminate|].
        intros [H|(f & Hf & Hfalse & _)]; [discriminate|].
        injection Hf as <-. congruence.
      * discriminate.
    + destruct (dict_get "name" d) as [name|] eqn:En; cbn [bind].
      * split; [|split].
        -- split.
           ++ intros [= H]. exists flag. split; [reflexivity|]. right.
              destruct name; simpl in H; try discriminate.
              apply String.eqb_eq in H. now subst.
           ++ intros (f & Hf & [Ht|Hn]).
              ** injection Hf as <-. congruence.
              ** injection Hn as ->. reflexivity.
        -- split; [intros [e He]; discriminate|].
           intros [H|(f & _ & _ & H)]; discriminate.
        -- discriminate.
      * split; [|split].
        -- split; [discriminate|].
           intros (f & Hf & [Ht|Hn]); [|discriminate].
           injection Hf as <-. congruence.
        -- split; [|intros _; now exists KeyError].
           intros _. right. exists flag. auto.
        -- now intros e [= <-].
  - split; [|split].
    + split; [discriminate | intros (f & Hf & _); discriminate].
    + split; [intros _; now left | intros _; now exists KeyError].
    + now intros e [= <-].
Qed.

(** X3: when the filter keeps no member (an empty list, a list of bots
    only, or a call with [ignore_bots=False]), [df_user_list] with
    [make_useful] raises [KeyError]: the empty frame has none of the
    columns. *)
Theorem no_member_kept_raises_KeyError :
  forall (json_data members_value : json) (members : list json)
         (ignore_key : string) (ignore_bots : bool),
    subscript json_data "members" = Ok members_value ->
    iterate members_value = Ok members ->
    filter_members ignore_bots members = Ok [] ->
    df_user_list json_data true ignore_key ignore_bots = Raise KeyError.
Proof.
  intros json_data mv members key ib Hsub Hit Hf.
  unfold df_user_list. rewrite Hsub. cbn [bind]. rewrite Hit. cbn [bind].
  rewrite Hf. cbn [bind]. destruct ib; reflexivity.
Qed.

Lemma no_member_kept_raises_KeyError_witness :
  df_user_list
    (JObj [("members", JArr [sample_member "Helper" "x" "" true])])
    true "#ignore" true
  = Raise KeyError.
Proof.
  apply (no_member_kept_raises_KeyError
           _ (JArr [sample_member "Helper" "x" "" true])
           [sample_member "Helper" "x" "" true]);
    reflexivity.
Defined.

(** ** The frame that comes out *)

Lemma combine_seq_fst {A : Type} (l : list A) (k : nat) :
  map fst (combine (seq k (List.length l)) l) = seq k (List.length l)
  /\ List.length (combine (seq k (List.length l)) l) = List.length l.
Proof.
  revert k. induction l as [|a l IH]; intros k; simpl; [auto|].
  destruct (IH (S k)) as [H1 H2]. now rewrite H1, H2.
Qed.

Lemma index_of_combine {A : Type} (l : list A) (n : nat) :
  List.length l = n ->
  map fst (combine (seq 0 n) l) = seq 0 (List.length (combine (seq 0 n) l)).
Proof.
  intros <-. destruct (combine_seq_fst l 0) as [H1 H2]. now rewrite H2.
Qed.

(** What [df_user_list] does with [make_useful] off. *)
Lemma df_user_list_raw (json_data : json) (ignore_key : string)
  (ignore_bots : bool) (df : DataFrame) :
  df_user_list json_data false ignore_key ignore_bots = Ok df ->
  exists members_value members kept,
    subscript json_data "members" = Ok members_value
    /\ iterate members_value = Ok members
    /\ filter_members ignore_bots members = Ok kept
    /\ df = rename_columns (json_normalize kept).
Proof.
  unfold df_user_list. intros H.
  apply bind_ok in H. destruct H as (mv & Hmv & H).
  apply bind_ok in H. destruct H as (ms & Hms & H).
  apply bind_ok in H. destruct H as (kept & Hk & [= <-]).
  now exists mv, ms, kept.
Qed.

(** What it does with [make_useful] on. *)
Lemma df_user_list_cleaned (json_data : json) (ignore_key : string)
  (ignore_bots : bool) (df : DataFrame) :
  df_user_list json_data true ignore_key ignore_bots = Ok df ->
  exists members_value members kept ps it ir,
    subscript json_data "members" = Ok members_value
    /\ iterate members_value = Ok members
    /\ filter_members ignore_bots members = Ok kept
    /\ select_positions (columns (rename_columns (json_normalize kept)))
         (cols ignore_bots) = Ok ps
    /\ df = reset_index
              {| columns := map (fun i => nth i (columns (rename_columns
                                                          (json_normalize kept))) "") ps;
                 rows := kept_rows ignore_key it ir
                           (selected
                              (map (fun i => nth i (columns (rename_columns
                                                              (json_normalize kept))) "") ps)
                              ps (rows (rename_columns (json_normalize kept)))) |}.
Proof.
  rewrite df_user_list_useful. intros H.
  apply bind_ok in H. destruct H as (mv & Hmv & H).
  apply bind_ok in H. destruct H as (ms & Hms & H).
  apply bind_ok in H. destruct H as (kept & Hk & H).
  apply bind_ok in H. destruct H as (df1 & Hget & H).
  apply getitem_cols_ok in Hget. destruct Hget as (ps & Hps & ->).
  apply clean_and_filter_ok in H. destruct H as (it & ir & _ & _ & ->).
  now exists mv, ms, kept, ps, it, ir.
Qed.

Lemma kept_rows_incl (key : string) (it ir : nat) (df : DataFrame)
  (r : nat * list cell) :
  In r (kept_rows key it ir df) -> In r (rows (replace_empty (apply_strip df))).
Proof.
  unfold kept_rows. intros H.
  apply filter_In in H. destruct H as [H _].
  apply filter_In in H. now destruct H.
Qed.

Lemma reset_index_row (df : DataFrame) (row : nat * list cell) :
  In row (rows (reset_index df)) ->
  exists r0, In r0 (rows df) /\ snd r0 = snd row.
Proof.
  intros H. apply (in_map snd) in H. rewrite rows_reset_index in H.
  apply in_map_iff in H. destruct H as (r0 & E & H). now exists r0.
Qed.

(** X4: the rows of the frame [df_user_list] returns are numbered
    0, 1, 2, ... without a gap, with [make_useful] on (after the two
    filters) as with it off. *)
Theorem df_user_list_index_is_contiguous :
  forall (json_data : json) (make_useful : bool) (ignore_key : string)
         (ignore_bots : bool) (df : DataFrame),
    df_user_list json_data make_useful ignore_key ignore_bots = Ok df ->
    map fst (rows df) = seq 0 (List.length (rows df)).
Proof.
  intros json_data [|] key ib df H.
  - apply df_user_list_cleaned in H.
    destruct H as (mv & ms & kept & ps & it & ir & _ & _ & _ & _ & ->).
    unfold reset_index. cbn [rows].
    apply index_of_combine. now rewrite length_map.
  - apply df_user_list_raw in H.
    destruct H as (mv & ms & kept & _ & _ & _ & ->).
    cbn [rows rename_columns json_normalize frame_of_records].
    apply index_of_combine. now rewrite length_map.
Qed.

Lemma df_user_list_index_is_contiguous_witness :
  map fst (rows sample_frame) = seq 0 (List.length (rows sample_frame)).
Proof.
  apply (df_user_list_index_is_contiguous sample_data true "#ignore" true).
  vm_compute. reflexivity.
Defined.

(** X5: in the frame returned with [make_useful] on, every cell that
    holds a string, in whatever column, holds one that is trimmed and not
    empty. *)
Theorem df_user_list_text_is_trimmed :
  forall (json_data : json) (ignore_key : string) (ignore_bots : bool)
         (df : DataFrame),
    df_user_list json_data true ignore_key ignore_bots = Ok df ->
    forall (row : nat * list cell) (i : nat) (s : string),
      In row (rows df) ->
      cell_at i (snd row) = Some (JStr s) ->
      s <> "" /\ Str.strip s = s.
Proof.
  intros json_data key ib df H row i s Hin Hc.
  apply df_user_list_cleaned in H.
  destruct H as (mv & ms & kept & ps & it & ir & _ & _ & _ & _ & ->).
  apply reset_index_row in Hin. destruct Hin as (r0 & Hr0 & E).
  cbn [rows] in Hr0. apply kept_rows_incl in Hr0.
  rewrite <- E in Hc. eapply cleaned_string; eassumption.
Qed.

Lemma df_user_list_text_is_trimmed_witness :
  "ada@example.org" <> "" /\ Str.strip "ada@example.org" = "ada@example.org".
Proof.
  apply (df_user_list_text_is_trimmed sample_data "#ignore" true sample_frame
           ltac:(vm_compute; reflexivity)
           (hd (0, []) (rows sample_frame)) 3 "ada@example.org").
  - left. reflexivity.
  - reflexivity.
Defined.

Lemma selected_labels_iff (cs sel : list string) (ps : list nat) (c : string) :
  select_positions cs sel = Ok ps ->
  (In c (map (fun i => nth i cs "") ps) <-> In c sel).
Proof.
  unfold select_positions. revert ps.
  induction sel as [|c0 sel IH]; intros ps H.
  - injection H as <-. reflexivity.
  - cbn [mapM] in H.
    destruct (positions c0 cs) as [|i0 is0] eqn:E0; [discriminate|].
    cbn [bind] in H.
    destruct (mapM _ sel) as [pss|e] eqn:Em; [|discriminate].
    cbn [bind] in H. injection H as <-.
    change (i0 :: is0 ++ List.concat pss)
      with ((i0 :: is0) ++ List.concat pss).
    rewrite map_app, in_app_iff.
    rewrite (IH (List.concat pss) eq_refl).
    assert (Hlab : forall i, In i (i0 :: is0) -> nth i cs "" = c0).
    { intros i Hi. rewrite <- E0 in Hi. apply positions_spec in Hi.
      now apply nth_error_nth. }
    split.
    + intros [Hc|Hc]; [|now right].
      apply in_map_iff in Hc. destruct Hc as (i & <- & Hi).
      left. symmetry. now apply Hlab.
    + intros [<-|Hc]; [|now right].
      left. apply in_map_iff. exists i0. split; [|now left].
      apply Hlab. now left.
Qed.

(** X6: the frame returned with [make_useful] on, the bots ignored, has
    the sixteen recognised labels for its columns and no other. *)
Theorem df_user_list_columns_are_the_recognised_ones :
  forall (json_data : json) (ignore_key : string) (df : DataFrame),
    df_user_list json_data true ignore_key true = Ok df ->
    forall c,
      In c (columns df) <->
      In c ["first_name"; "last_name"; "real_name_normalized";
            "email"; "skype"; "phone"; "title";
            "image_1024"; "image_512"; "image_192"; "is_custom_image";
            "display_name_normalized"; "tz"; "id"; "deleted"; "updated"].
Proof.
  intros json_data key df H c.
  apply df_user_list_cleaned in H.
  destruct H as (mv & ms & kept & ps & it & ir & _ & _ & _ & Hps & ->).
  cbn [columns reset_index].
  exact (selected_labels_iff _ _ _ c Hps).
Qed.

Lemma df_user_list_columns_are_the_recognised_ones_witness :
  In "email" (columns sample_frame) <->
  In "email" ["first_name"; "last_name"; "real_name_normalized";
              "email"; "skype"; "phone"; "title";
              "image_1024"; "image_512"; "image_192"; "is_custom_image";
              "display_name_normalized"; "tz"; "id"; "deleted"; "updated"].
Proof.
  apply (df_user_list_columns_are_the_recognised_ones
           sample_data "#ignore" sample_frame).
  vm_compute. reflexivity.
Defined.

(** X7: the frame [df_user_list] returns is rectangular: each row has as
    many cells as the frame has columns. *)
Theorem df_user_list_frame_is_rectangular :
  forall (json_data : json) (make_useful : bool) (ignore_key : string)
         (ignore_bots : bool) (df : DataFrame),
    df_user_list json_data make_useful ignore_key ignore_bots = Ok df ->
    forall row, In row (rows df) ->
      List.length (snd row) = List.length (columns df).
Proof.
  intros json_data [|] key ib df H row Hin.
  - apply df_user_list_cleaned in H.
    destruct H as (mv & ms & kept & ps & it & ir & _ & _ & _ & _ & ->).
    apply reset_index_row in Hin. destruct Hin as (r0 & Hr0 & <-).
    cbn [rows] in Hr0. apply kept_rows_incl in Hr0.
    apply rows_cleaned in Hr0. destruct Hr0 as (cells & Hcells & ->).
    cbn [columns reset_index selected] in *.
    cbn [rows selected] in Hcells.
    apply in_map_iff in Hcells. destruct Hcells as (r1 & [= _ <-] & _).
    repeat first [rewrite length_map | rewrite length_combine | rewrite length_seq].
    apply Nat.min_id.
  - apply df_user_list_raw in H.
    destruct H as (mv & ms & kept & _ & _ & _ & ->).
    cbn [rows columns rename_columns json_normalize frame_of_records] in *.
    destruct row as [idx cells]. apply in_combine_r in Hin.
    apply in_map_iff in Hin.
    destruct Hin as (d & <- & _). cbn [snd]. now rewrite !length_map.
Qed.

Lemma df_user_list_frame_is_rectangular_witness :
  List.length (snd (hd (0, []) (rows sample_frame)))
  = List.length (columns sample_frame).
Proof.
  apply (df_user_list_frame_is_rectangular sample_data true "#ignore" true).
  - vm_compute. reflexivity.
  - left. reflexivity.
Defined.

Lemma filterM_length {A : Type} (p : A -> result bool) (l kept : list A) :
  filterM p l = Ok kept -> List.length kept <= List.length l.
Proof.
  revert kept. induction l as [|a l IH]; simpl; intros kept H.
  - injection H as <-. constructor.
  - apply bind_ok in H. destruct H as (b & _ & H).
    apply bind_ok in H. destruct H as (rest & Hrest & [= <-]).
    specialize (IH rest Hrest). destruct b; simpl; lia.
Qed.

(** X8: the frame has at most one row for each member the bot filter
    keeps, hence at most one for each member of the list; with
    [make_useful] off it has exactly one for each member kept. *)
Theorem df_user_list_row_count :
  forall (json_data : json) (members kept : list json) (make_useful : bool)
         (ignore_key : string) (ignore_bots : bool) (df : DataFrame),
    subscript json_data "members" = Ok (JArr members) ->
    filter_members ignore_bots members = Ok kept ->
    df_user_list json_data make_useful ignore_key ignore_bots = Ok df ->
    List.length (rows df) <= List.length kept
    /\ List.length kept <= List.length members
    /\ (make_useful = false -> List.length (rows df) = List.length kept).
Proof.
  intros json_data members kept mu key ib df Hsub Hkept H.
  assert (Hk : List.length kept <= List.length members)
    by (eapply filterM_length; exact Hkept).
  destruct mu.
  - apply df_user_list_cleaned in H.
    destruct H as (mv & ms & kept' & ps & it & ir & Hmv & Hms & Hk' & _ & ->).
    rewrite Hsub in Hmv. injection Hmv as <-. injection Hms as <-.
    rewrite Hkept in Hk'. injection Hk' as <-.
    split; [|split; [exact Hk | discriminate]].
    unfold reset_index. cbn [rows].
    rewrite length_combine, length_seq, length_map, Nat.min_id.
    unfold kept_rows.
    etransitivity; [apply filter_length_le|].
    etransitivity; [apply filter_length_le|].
    unfold replace_empty, apply_strip, selected. cbn [rows].
    rewrite !length_map.
    cbn [rows rename_columns json_normalize frame_of_records].
    now rewrite length_combine, length_seq, !length_map, Nat.min_id.
  - apply df_user_list_raw in H.
    destruct H as (mv & ms & kept' & Hmv & Hms & Hk' & ->).
    rewrite Hsub in Hmv. injection Hmv as <-. injection Hms as <-.
    rewrite Hkept in Hk'. injection Hk' as <-.
    assert (E : List.length (rows (rename_columns (json_normalize kept)))
                = List.length kept).
    { cbn [rows rename_columns json_normalize frame_of_records].
      now rewrite length_combine, length_seq, !length_map, Nat.min_id. }
    rewrite E. auto.
Qed.

Lemma df_user_list_row_count_witness :
  List.length (rows sample_frame) <= 3
  /\ 3 <= 4
  /\ (true = false -> List.length (rows sample_frame) = 3).
Proof.
  apply (df_user_list_row_count sample_data
           [sample_member " Ada L " "boss" "ada.l" false;
            sample_member "Bob" "#ignore" "" false;
            sample_member "Helper" "x" "" true;
            sample_member "  " "x" "" false]
           [sample_member " Ada L " "boss" "ada.l" false;
            sample_member "Bob" "#ignore" "" false;
            sample_member "  " "x" "" false]
           true "#ignore" true sample_frame).
  - reflexivity.
  - vm_compute. reflexivity.
  - vm_compute. reflexivity.
Defined.

End MoreNormaliser.

(** ** The labels of the columns *)

Section MoreStrings.

Local Open Scope string_scope.

Lemma replace_from_absent (old new s : string) :
  Str.contains old s = false -> Str.replace_from old new s 0 = s.
Proof.
  induction s as [|c s IH]; [reflexivity|].
  cbn [Str.contains Str.replace_from].
  destruct (Str.prefix old (String c s)); [discriminate|].
  intros H. now rewrite IH.
Qed.

Lemma replace_absent (old new s : string) :
  Str.contains old s = false -> Str.replace old new s = s.
Proof.
  intros H. unfold Str.replace.
  destruct old as [|c old]; [|now apply replace_from_absent].
  destruct s; discriminate.
Qed.

(** X9: a key that has no dot and no [profile_] in it keeps its name as a
    label, and the same key under [profile] gets that very label:
    [profile.email] and a top-level [email] both end up as [email]. *)
Theorem rename_column_drops_the_profile_prefix :
  forall k : string,
    Str.contains "." k = false ->
    Str.contains "profile_" k = false ->
    rename_column k = k /\ rename_column ("profile." ++ k) = k.
Proof.
  intros k Hdot Hprof. unfold rename_column. split.
  - rewrite (replace_absent "." "_" k Hdot).
    now rewrite (replace_absent "profile_" "" k Hprof).
  - unfold Str.replace. cbn [Str.is_empty append].
    cbn [Str.replace_from Str.prefix Ascii.eqb Bool.eqb andb String.length
         Nat.sub append].
    rewrite (replace_from_absent "." "_" k Hdot).
    cbn [Str.replace_from Str.prefix Ascii.eqb Bool.eqb andb String.length
         Nat.sub append].
    now rewrite (replace_from_absent "profile_" "" k Hprof).
Qed.

Lemma rename_column_drops_the_profile_prefix_witness :
  rename_column "real_name_normalized" = "real_name_normalized"
  /\ rename_column ("profile." ++ "real_name_normalized") = "real_name_normalized".
Proof.
  apply rename_column_drops_the_profile_prefix; reflexivity.
Defined.

(** ** The avatar fetcher *)

Lemma prefix_split (sub s : string) :
  Str.prefix sub s = true -> exists post, s = sub ++ post.
Proof.
  revert s. induction sub as [|a sub IH]; intros s H.
  - now exists s.
  - destruct s as [|b s]; [discriminate|]. cbn [Str.prefix] in H.
    apply andb_prop in H. destruct H as [Hab H].
    apply Ascii.eqb_eq in Hab. subst b.
    destruct (IH s H) as [post ->]. now exists post.
Qed.

Lemma contains_split (sub s : string) :
  Str.contains sub s = true -> exists pre post, s = pre ++ sub ++ post.
Proof.
  induction s as [|c s IH]; cbn [Str.contains].
  - destruct (Str.prefix sub "") eqn:E; [|discriminate].
    intros _. apply prefix_split in E. destruct E as [post E].
    now exists "", post.
  - destruct (Str.prefix sub (String c s)) eqn:E.
    + intros _. apply prefix_split in E. destruct E as [post E].
      now exists "", post.
    + intros H. destruct (IH H) as (pre & post & ->).
      now exists (String c pre), post.
Qed.

(** X10: [skip_avatar] says yes exactly for the addresses that have the
    path of the default pictures somewhere in them. *)
Theorem skip_avatar_iff_default_path_inside :
  forall url : string,
    skip_avatar url = true <->
    exists pre post, url = pre ++ default_avatar ++ post.
Proof.
  intros url. unfold skip_avatar. split.
  - destruct (Str.contains default_avatar url) eqn:E; [|discriminate].
    intros _. now apply contains_split.
  - intros (pre & post & ->). now rewrite contains_infix.
Qed.

(** X11: [url_to_data] sends no request for a default address and one
    request, to the address given, for any other; it changes no file;
    an error of the request comes out as it is; and bytes come out only
    as the content of a response whose own address is no default one. *)
Theorem url_to_data_requests_and_content :
  forall (url : string) (w : world),
    let r := url_to_data url w in
    (skip_avatar url = true -> r = (Ok None, w))
    /\ (skip_avatar url = false -> sent (snd r) = (sent w ++ [url])%list)
    /\ files (snd r) = files w
    /\ (forall e, skip_avatar url = false -> web w url = Raise e ->
          fst r = Raise e)
    /\ (forall data, fst r = Ok (Some data) ->
          skip_avatar url = false
          /\ exists resp, web w url = Ok resp
                          /\ skip_avatar (resp_url resp) = false
                          /\ data = resp_content resp).
Proof.
  intros url w r. subst r. unfold url_to_data, requests_get.
  destruct (skip_avatar url) eqn:Es.
  - repeat split; try discriminate.
  - destruct (web w url) as [resp|e] eqn:Ew.
    + destruct (skip_avatar (resp_url resp)) eqn:Er;
        (split; [discriminate|]); (split; [reflexivity|]);
        (split; [reflexivity|]); (split; [discriminate|]).
      * discriminate.
      * intros data [= <-]. split; [reflexivity|]. now exists resp.
    + split; [discriminate|]. split; [reflexivity|]. split; [reflexivity|].
      split; [now intros e' _ [= <-] | discriminate].
Qed.

End MoreStrings.

(** ** Base64 *)

Section MoreBase64.

Local Open Scope list_scope.

Lemma data_to_b64_text (data : list byte) :
  data_to_b64 data = Ok (string_of_list_ascii (b64encode_chars data)).
Proof.
  unfold data_to_b64, decode_utf8. cbn [bind].
  rewrite utf8_valid_ascii by apply b64encode_ascii.
  cbn [bind]. unfold b64encode. now rewrite string_of_bytes_of_chars.
Qed.

Lemma length_string_of_list_ascii (cs : list ascii) :
  String.length (string_of_list_ascii cs) = List.length cs.
Proof. induction cs as [|c cs IH]; simpl; [reflexivity | now rewrite IH]. Qed.

Lemma b64encode_chars_length (data : list byte) :
  List.length (b64encode_chars data) = 4 * ((List.length data + 2) / 3).
Proof.
  induction data as [| a | a b | a b c l IH] using list_ind3.
  - reflexivity.
  - reflexivity.
  - reflexivity.
  - cbn [b64encode_chars sextets List.length]. rewrite IH.
    replace (S (S (S (List.length l))) + 2) with (List.length l + 2 + 1 * 3) by lia.
    rewrite Nat.div_add by discriminate. lia.
Qed.

Lemma b64_char_symbol (n : N) : (n < 64)%N -> b64_symbol (b64_char n) = true.
Proof. intros H. unfold b64_symbol. now rewrite b64_index_char. Qed.

Lemma b64encode_chars_symbols (data : list byte) :
  Forall (fun c => b64_symbol c = true) (b64encode_chars data).
Proof.
  induction data as [| a | a b | a b c l IH] using list_ind3.
  - constructor.
  - destruct (sextets_below _ (group24_bound a x00 x00)) as (S1 & S2 & S3 & S4).
    cbn [b64encode_chars sextets].
    repeat constructor; try (now apply b64_char_symbol).
  - destruct (sextets_below _ (group24_bound a b x00)) as (S1 & S2 & S3 & S4).
    cbn [b64encode_chars sextets].
    repeat constructor; try (now apply b64_char_symbol).
  - destruct (sextets_below _ (group24_bound a b c)) as (S1 & S2 & S3 & S4).
    cbn [b64encode_chars sextets].
    repeat (constructor; [now apply b64_char_symbol|]). exact IH.
Qed.

(** X12: the text [data_to_b64] gives has four characters for every
    three bytes begun, each of them a letter of the Base64 alphabet or the
    padding sign. *)
Theorem data_to_b64_length_and_alphabet :
  forall data : list byte,
    exists text : string,
      data_to_b64 data = Ok text
      /\ String.length text = 4 * ((List.length data + 2) / 3)
      /\ Forall (fun c => b64_symbol c = true) (list_ascii_of_string text).
Proof.
  intros data. exists (string_of_list_ascii (b64encode_chars data)).
  split; [apply data_to_b64_text|]. split.
  - rewrite length_string_of_list_ascii. apply b64encode_chars_length.
  - rewrite list_ascii_of_string_of_list_ascii. apply b64encode_chars_symbols.
Qed.

(** X13: [data_to_b64] gives different texts for different bytes. *)
Theorem data_to_b64_is_injective :
  forall d1 d2 : list byte, data_to_b64 d1 = data_to_b64 d2 -> d1 = d2.
Proof.
  intros d1 d2 H. rewrite !data_to_b64_text in H. injection H as H.
  pose proof (decode_encode_chars d1) as H1.
  pose proof (decode_encode_chars d2) as H2.
  rewrite H in H1. congruence.
Qed.

Lemma data_to_b64_is_injective_witness : [x48; x69] = [x48; x69].
Proof. apply data_to_b64_is_injective. reflexivity. Defined.

End MoreBase64.

(** ** Extensions *)

Section MoreExtensions.

Local Open Scope string_scope.

Lemma rfind_from_get (c : ascii) (s : string) (i j : nat) (found : option nat) :
  rfind_from i c s found = Some j ->
  found = Some j \/ (i <= j /\ String.get (j - i) s = Some c).
Proof.
  revert i found. induction s as [|c' s IH]; intros i found H; simpl in H.
  - now left.
  - apply IH in H. destruct H as [H|[Hle H]].
    + destruct (Ascii.eqb c c') eqn:E; [|now left].
      injection H as <-. apply Ascii.eqb_eq in E. subst c'.
      right. split; [lia|]. now rewrite Nat.sub_diag.
    + right. split; [lia|].
      replace (j - i) with (S (j - S i)) by lia. exact H.
Qed.

Lemma rfind_get (c : ascii) (s : string) (j : nat) :
  rfind c s = Some j -> String.get j s = Some c.
Proof.
  intros H. apply rfind_from_get in H.
  destruct H as [H|[_ H]]; [discriminate|]. now rewrite Nat.sub_0_r in H.
Qed.

Lemma drop_get (n : nat) (s : string) (c : ascii) :
  String.get n s = Some c -> exists rest, Str.drop n s = String c rest.
Proof.
  revert s. induction n as [|n IH]; intros [|x s]; simpl; try discriminate.
  - intros [= ->]. now exists s.
  - apply IH.
Qed.

Lemma substring_drop (n : nat) (s : string) :
  String.substring 0 n s ++ Str.drop n s = s.
Proof.
  revert s. induction n as [|n IH]; intros [|x s]; simpl; try reflexivity.
  now rewrite IH.
Qed.

Lemma splitext_shape :
  forall p : string,
    fst (splitext p) ++ snd (splitext p) = p
    /\ (snd (splitext p) = ""
        \/ exists rest, snd (splitext p) = String "."%char rest).
Proof.
  intros p. unfold splitext.
  destruct (rfind "."%char p) as [dotIndex|] eqn:Ed.
  - destruct (_ && _).
    + cbn [fst snd]. split; [apply substring_drop|].
      right. apply rfind_get in Ed. now apply drop_get.
    + cbn [fst snd]. split; [apply append_empty_r | now left].
  - cbn [fst snd]. split; [apply append_empty_r | now left].
Qed.

(** X16: [splitext] cuts an address in two pieces that put together give
    the address back, and the second piece is empty or begins with a
    dot. *)
Theorem splitext_pieces :
  forall p : string,
    fst (splitext p) ++ snd (splitext p) = p
    /\ (snd (splitext p) = ""
        \/ exists rest, snd (splitext p) = String "."%char rest).
Proof. exact splitext_shape. Qed.

(** X17: the token [write_vcard] computes for the [PHOTO] line is [JPEG],
    or empty, or begins with a dot: no address gives a bare format name
    other than [JPEG]. *)
Theorem photo_ext_is_JPEG_or_dotted :
  forall pic_url : string,
    photo_ext pic_url = "JPEG"
    \/ photo_ext pic_url = ""
    \/ exists rest, photo_ext pic_url = String "."%char rest.
Proof.
  intros pic_url. unfold photo_ext.
  destruct (existsb _ _); [now left|]. right.
  destruct (splitext_shape pic_url) as [_ [->|[rest ->]]].
  - now left.
  - right. now exists (Str.upper rest).
Qed.

End MoreExtensions.

(** ** The daily cache *)

Section MoreCache.

Local Open Scope string_scope.

Variable json_loads : string -> result json.
Variable json_dumps : json -> string.

Lemma makedirs_existing (path : string) (w : world) :
  Str.is_empty path = false -> isdir path w = true -> makedirs path w = (None, w).
Proof. intros Hne H. unfold makedirs. now rewrite Hne, H. Qed.

Lemma makedirs_not_empty (path : string) (w : world) :
  fst (makedirs path w) = None -> Str.is_empty path = false.
Proof. unfold makedirs. destruct (Str.is_empty path); [discriminate | reflexivity]. Qed.

Lemma todays_file_same_day (cache_folder : json) (w w' : world) :
  utc_today w' = utc_today w ->
  todays_file cache_folder w' = todays_file cache_folder w.
Proof. intros H. unfold todays_file. now rewrite H. Qed.

Lemma cache_user_list_spec (json_data cache_folder : json) (w : world) :
  let w' := snd (makedirs (folder_name cache_folder) w) in
  let path := todays_file cache_folder w in
  cache_user_list json_dumps json_data cache_folder w
  = match fst (makedirs (folder_name cache_folder) w) with
    | Some e => (Some e, w')
    | None =>
        match os_open_write path w' with
        | Raise e => (Some e, w')
        | Ok w1 =>
            (None,
             set_files (file_set path (json_dumps json_data) (files w1)) w1)
        end
    end.
Proof.
  cbv zeta. unfold cache_user_list. rewrite cachefile_spec.
  destruct (fst (makedirs (folder_name cache_folder) w)); reflexivity.
Qed.

(** Opening today's file for writing, once [os.makedirs] went
    through. *)
Lemma open_todays_file (cache_folder : json) (w : world) :
  let w' := snd (makedirs (folder_name cache_folder) w) in
  let path := todays_file cache_folder w in
  fst (makedirs (folder_name cache_folder) w) = None ->
  os_open_write path w'
  = if isdir path w then Raise IsADirectoryError
    else
      match refused w (OpenWrite path) with
      | Some e => Raise e
      | None => Ok (set_files (file_set path "" (files w)) w')
      end.
Proof.
  cbv zeta. intros Hm. unfold os_open_write.
  destruct (makedirs_done _ _ Hm) as [_ Hd].
  destruct (makedirs_keeps (folder_name cache_folder) w) as (Hf & _ & _ & Hr & _).
  rewrite todays_file_not_empty, (Hd _ (todays_file_not_folder cache_folder w)).
  now rewrite Hr, Hf.
Qed.

(** What saving does, and when it goes through. *)
Lemma cache_user_list_effects (json_data cache_folder : json) (w : world) :
  let path := todays_file cache_folder w in
  let saved := cache_user_list json_dumps json_data cache_folder w in
  sent (snd saved) = sent w
  /\ utc_today (snd saved) = utc_today w
  /\ refused (snd saved) = refused w
  /\ (forall other, other <> path ->
        file_get other (files (snd saved)) = file_get other (files w))
  /\ (fst saved = None <->
      fst (makedirs (folder_name cache_folder) w) = None
      /\ isdir path w = false
      /\ refused w (OpenWrite path) = None)
  /\ (fst saved = None ->
      file_get path (files (snd saved)) = Some (json_dumps json_data)
      /\ isdir (folder_name cache_folder) (snd saved) = true
      /\ isdir path (snd saved) = false)
  /\ (forall e, fst saved = Some e -> files (snd saved) = files w).
Proof.
  cbv zeta. rewrite cache_user_list_spec.
  destruct (makedirs_keeps (folder_name cache_folder) w) as (Hf & Hs & Hu & Hr & _).
  destruct (fst (makedirs (folder_name cache_folder) w)) as [e|] eqn:Hm.
  - cbn [fst snd]. rewrite Hs, Hu, Hr, Hf.
    repeat split; try discriminate; auto.
    intros (H & _). discriminate.
  - rewrite (open_todays_file _ _ Hm).
    destruct (makedirs_done _ _ Hm) as [Hdir Hd].
    destruct (isdir (todays_file cache_folder w) w) eqn:Ed.
    + cbn [fst snd]. rewrite Hs, Hu, Hr, Hf.
      repeat split; try discriminate; auto.
      intros (_ & H & _). discriminate.
    + destruct (refused w (OpenWrite (todays_file cache_folder w))) as [e|] eqn:Er.
      * cbn [fst snd]. rewrite Hs, Hu, Hr, Hf.
        repeat split; try discriminate; auto.
        intros (_ & _ & H). discriminate.
      * pose proof (Hd _ (todays_file_not_folder cache_folder w)) as Hd'.
        rewrite Ed in Hd'.
        cbn [fst snd sent utc_today refused files set_files].
        rewrite Hs, Hu, Hr.
        split; [reflexivity|]. split; [reflexivity|]. split; [reflexivity|].
        split; [intros other Hne; now rewrite !file_get_set_other|].
        split; [split; auto|].
        split; [|discriminate].
        intros _. split; [apply file_get_set_same|].
        split; [exact Hdir | exact Hd'].
Qed.

(** X18: what [cache_user_list] saved, [cached_user_list] called next
    with the same folder reads back, unless the reading is refused: it
    returns [json.loads] of the text [json.dumps] made, whatever today's
    file held before. *)
Theorem cache_then_load :
  forall (json_data cache_folder : json) (w : world),
    let saved := cache_user_list json_dumps json_data cache_folder w in
    fst saved = None ->
    refused w (OpenRead (todays_file cache_folder w)) = None ->
    fst (cached_user_list json_loads cache_folder (snd saved))
    = json_loads (json_dumps json_data).
Proof.
  intros json_data cf w saved Hsaved Hread. subst saved.
  destruct (cache_user_list_effects json_data cf w)
    as (_ & Hu & Hr & _ & Hiff & Hdone & _).
  cbv zeta in *.
  destruct (Hdone Hsaved) as (Hfile & Hdir & Hnodir).
  apply Hiff in Hsaved. destruct Hsaved as (Hm & _ & _).
  set (w2 := snd (cache_user_list json_dumps json_data cf w)) in *.
  assert (Hm2 : fst (makedirs (folder_name cf) w2) = None)
    by (rewrite makedirs_existing;
        [reflexivity | exact (makedirs_not_empty _ _ Hm) | exact Hdir]).
  rewrite (cached_user_list_loads _ _ _ Hm2).
  rewrite (todays_file_same_day cf w w2 Hu), Hnodir, Hfile, Hr, Hread.
  reflexivity.
Qed.

(** X19: a second [cached_user_list] right after the first ends as the
    first did and changes nothing more; and when the first returned, the
    folder is a directory, made by the call if it was not there (loading
    is not read-only). *)
Theorem cached_user_list_twice :
  forall (cache_folder : json) (w : world),
    let first := cached_user_list json_loads cache_folder w in
    cached_user_list json_loads cache_folder (snd first) = first
    /\ (forall v, fst first = Ok v ->
          isdir (folder_name cache_folder) (snd first) = true).
Proof.
  intros cf w first. subst first.
  pose proof (cached_user_list_keeps json_loads cf w) as K. cbv zeta in K.
  destruct (makedirs_keeps (folder_name cf) w) as (_ & _ & Hu & _).
  destruct (fst (makedirs (folder_name cf) w)) as [e|] eqn:Hm.
  - split.
    + rewrite K, (makedirs_raises _ _ _ Hm). reflexivity.
    + intros v. rewrite cached_user_list_spec, Hm. discriminate.
  - destruct (makedirs_done _ _ Hm) as [Hdir _].
    split; [|intros v _; now rewrite K].
    rewrite K.
    set (w' := snd (makedirs (folder_name cf) w)) in *.
    assert (E : makedirs (folder_name cf) w' = (None, w'))
      by (apply makedirs_existing;
          [exact (makedirs_not_empty _ _ Hm) | exact Hdir]).
    rewrite (cached_user_list_spec json_loads cf w'), E. cbn [fst snd].
    rewrite (cached_user_list_spec json_loads cf w), Hm. fold w'.
    now rewrite (todays_file_same_day cf w w' Hu).
Qed.


End MoreCache.

Lemma cache_then_load_witness :
  fst (cached_user_list sample_loads JNull
         (snd (cache_user_list sample_dumps (JArr []) JNull sample_world)))
  = sample_loads (sample_dumps (JArr [])).
Proof.
  exact (cache_then_load sample_loads sample_dumps (JArr []) JNull sample_world
           eq_refl eq_refl).
Defined.


Lemma cached_user_list_twice_witness :
  isdir "cards" (snd (cached_user_list sample_loads (JStr "cards") sample_world))
  = true.
Proof.
  exact (proj2 (cached_user_list_twice sample_loads (JStr "cards") sample_world)
           JNull eq_refl).
Defined.

(** ** One cache file a day *)

Section MoreDates.

Local Open Scope string_scope.

Lemma digit_mod (a b : nat) : digit a = digit b -> a mod 10 = b mod 10.
Proof.
  unfold digit. intros H. apply (f_equal nat_of_ascii) in H.
  assert (Ha : a mod 10 < 10) by (apply Nat.mod_upper_bound; discriminate).
  assert (Hb : b mod 10 < 10) by (apply Nat.mod_upper_bound; discriminate).
  rewrite !nat_ascii_embedding in H by lia. lia.
Qed.

Lemma two_digits (n m : nat) :
  n < 100 -> m < 100 ->
  (n / 10) mod 10 = (m / 10) mod 10 -> n mod 10 = m mod 10 -> n = m.
Proof.
  intros Hn Hm H1 H0.
  assert (n / 10 < 10) by (apply Nat.Div0.div_lt_upper_bound; exact Hn).
  assert (m / 10 < 10) by (apply Nat.Div0.div_lt_upper_bound; exact Hm).
  rewrite !Nat.mod_small in H1 by assumption.
  rewrite (Nat.div_mod_eq n 10), (Nat.div_mod_eq m 10). lia.
Qed.

Lemma four_digits (n m : nat) :
  n < 100 * 100 -> m < 100 * 100 ->
  (n / 1000) mod 10 = (m / 1000) mod 10 ->
  (n / 100) mod 10 = (m / 100) mod 10 ->
  (n / 10) mod 10 = (m / 10) mod 10 ->
  n mod 10 = m mod 10 -> n = m.
Proof.
  intros Hn Hm H3 H2 H1 H0.
  assert (E : n / 100 = m / 100).
  { apply two_digits; try assumption.
    - apply Nat.Div0.div_lt_upper_bound. exact Hn.
    - apply Nat.Div0.div_lt_upper_bound. exact Hm.
    - now rewrite !Nat.Div0.div_div. }
  assert (E1 : n / 10 = m / 10).
  { rewrite (Nat.div_mod_eq (n / 10) 10), (Nat.div_mod_eq (m / 10) 10).
    rewrite !Nat.Div0.div_div. change (10 * 10) with 100. lia. }
  rewrite (Nat.div_mod_eq n 10), (Nat.div_mod_eq m 10). lia.
Qed.

Lemma strftime_ymd_injective (d d' : date) (ext : string) :
  plausible d -> plausible d' ->
  strftime_ymd d ++ ext = strftime_ymd d' ++ ext -> d = d'.
Proof.
  intros (Hy & Hm & Hd) (Hy' & Hm' & Hd') H.
  unfold strftime_ymd, pad4, pad2 in H. cbn [append] in H.
  injection H as Y3 Y2 Y1 Y0 M1 M0 D1 D0.
  apply digit_mod in Y3, Y2, Y1, Y0, M1, M0, D1, D0.
  destruct d as [y m dd], d' as [y' m' dd']. cbn [year month day] in *.
  f_equal.
  - now apply four_digits.
  - now apply two_digits.
  - now apply two_digits.
Qed.

Lemma append_inj_l (a x y : string) : a ++ x = a ++ y -> x = y.
Proof. induction a as [|c a IH]; simpl; [auto|]. intros [= H]. auto. Qed.

Lemma todays_file_of_another_day (cache_folder : json) (w : world) (d' : date) :
  plausible (utc_today w) -> plausible d' -> d' <> utc_today w ->
  todays_file cache_folder (at_date d' w) <> todays_file cache_folder w.
Proof.
  intros Hp Hp' Hne E. apply Hne. unfold todays_file, os_path_join in E.
  cbn [utc_today at_date] in E.
  rewrite !strftime_ymd_relative in E.
  destruct (Str.is_empty (folder_name cache_folder)
            || ends_with_slash (folder_name cache_folder)).
  - apply append_inj_l in E. now apply strftime_ymd_injective in E.
  - apply append_inj_l in E. apply (append_inj_l "/") in E.
    now apply strftime_ymd_injective in E.
Qed.

Variable json_loads : string -> result json.
Variable json_dumps : json -> string.

(** X22: the cache is kept by the day: what [cache_user_list] saved on
    one day, [cached_user_list] does not return on another day; it
    returns [None] when nothing is there under that day's name. *)
Theorem cache_is_kept_by_the_day :
  forall (json_data cache_folder : json) (w : world) (d' : date),
    plausible (utc_today w) -> plausible d' -> d' <> utc_today w ->
    fst (cache_user_list json_dumps json_data cache_folder w) = None ->
    os_path_exists (todays_file cache_folder (at_date d' w)) w = false ->
    fst (cached_user_list json_loads cache_folder
           (at_date d' (snd (cache_user_list json_dumps json_data
                               cache_folder w))))
    = Ok JNull.
Proof.
  intros json_data cf w d' Hp Hp' Hd Hsaved Hnone.
  destruct (cache_user_list_effects json_dumps json_data cf w)
    as (_ & Hu & Hr & Hother & Hiff & Hdone & _).
  cbv zeta in *.
  destruct (Hdone Hsaved) as (_ & Hdir & _).
  pose proof (proj1 Hiff Hsaved) as (Hm & _ & _).
  set (w1 := snd (cache_user_list json_dumps json_data cf w)) in *.
  set (w2 := at_date d' w1).
  assert (Hm2 : fst (makedirs (folder_name cf) w2) = None)
    by (rewrite makedirs_existing;
        [reflexivity | exact (makedirs_not_empty _ _ Hm) | exact Hdir]).
  rewrite (cached_user_list_loads _ _ _ Hm2).
  assert (E : todays_file cf w2 = todays_file cf (at_date d' w)) by reflexivity.
  rewrite E.
  apply orb_false_elim in Hnone. destruct Hnone as [Hfile Hnodir].
  assert (Hdirs : isdir (todays_file cf (at_date d' w)) w2 = false).
  { change (isdir (todays_file cf (at_date d' w)) w1 = false).
    subst w1. rewrite cache_user_list_spec, Hm.
    destruct (makedirs_done _ _ Hm) as [_ Hkeep].
    pose proof (Hkeep _ (todays_file_not_folder cf (at_date d' w))) as Hk.
    destruct (os_open_write _ _) as [w3|e] eqn:Eo; cbn [snd].
    - apply os_open_write_ok in Eo. subst w3.
      unfold isdir in *. cbn [dirs set_files]. now rewrite Hk.
    - now rewrite Hk. }
  rewrite Hdirs.
  change (files w2) with (files w1).
  rewrite Hother by now apply todays_file_of_another_day.
  unfold isfile in Hfile.
  destruct (file_get (todays_file cf (at_date d' w)) (files w));
    [discriminate | reflexivity].
Qed.

End MoreDates.

Lemma cache_is_kept_by_the_day_witness :
  fst (cached_user_list sample_loads (JStr "cache")
         (at_date (mkDate 2026 11 5)
            (snd (cache_user_list sample_dumps (JObj []) (JStr "cache")
                    sample_world))))
  = Ok JNull.
Proof.
  apply (cache_is_kept_by_the_day sample_loads sample_dumps
           (JObj []) (JStr "cache") sample_world (mkDate 2026 11 5)).
  - unfold plausible. simpl. lia.
  - unfold plausible. simpl. lia.
  - discriminate.
  - reflexivity.
  - reflexivity.
Defined.

(** ** The request for the member list *)

Section MoreScript.

Local Open Scope string_scope.

(** X23: [get_user_list] sends one request and writes no file; a
    response that is not ok makes it raise with the status code of the
    response, and what it returns is the JSON body of a response that is
    ok. *)
Theorem get_user_list_outcome :
  forall (api_key : string) (w : world),
    let r := get_user_list api_key w in
    sent (snd r) = (sent w ++ [users_list_url api_key])%list
    /\ files (snd r) = files w
    /\ (forall resp, web w (users_list_url api_key) = Ok resp ->
          resp_ok resp = false ->
          fst r = Raise (BadRequest (resp_status_code resp)))
    /\ (forall json_data, fst r = Ok json_data ->
          exists resp, web w (users_list_url api_key) = Ok resp
                       /\ resp_ok resp = true
                       /\ resp_json resp = Ok json_data).
Proof.
  intros api_key w r. subst r. unfold get_user_list, requests_get.
  destruct (web w (users_list_url api_key)) as [resp|e] eqn:Ew.
  - destruct (resp_ok resp) eqn:Eok; cbn [negb fst snd sent files set_sent].
    + repeat split; try reflexivity.
      * intros resp' [= <-]. congruence.
      * intros j Hj. now exists resp.
    + repeat split; try reflexivity.
      * now intros resp' [= <-] _.
      * discriminate.
  - cbn [fst snd sent files set_sent].
    repeat split; try reflexivity; discriminate.
Qed.

Variable json_loads : string -> result json.
Variable json_dumps : json -> string.
Variable API_KEY : string.

(** What the first statement of the script leaves of its world. *)
Lemma cached_user_list_world (cache_folder : json) (w : world) :
  let w1 := snd (cached_user_list json_loads cache_folder w) in
  files w1 = files w /\ sent w1 = sent w /\ utc_today w1 = utc_today w
  /\ refused w1 = refused w /\ web w1 = web w.
Proof.
  cbv zeta. rewrite (cached_user_list_keeps json_loads cache_folder w).
  apply makedirs_keeps.
Qed.

Lemma makedirs_after_request (path : string) (l : list string) (w : world) :
  fst (makedirs path (set_sent l w)) = fst (makedirs path w).
Proof.
  unfold makedirs, isdir, isfile. cbn [dirs files refused set_sent].
  destruct (Str.is_empty path); [reflexivity|].
  destruct (existsb _ (dirs w)); [reflexivity|].
  destruct (file_get path (files w)); [reflexivity|].
  destruct (refused w (Makedirs path)); reflexivity.
Qed.

(** What a first statement that returned tells about the world before
    and after it. *)
Lemma cached_user_list_returned (cache_folder : json) (w : world) (v : json) :
  let path := todays_file cache_folder w in
  let w1 := snd (cached_user_list json_loads cache_folder w) in
  fst (cached_user_list json_loads cache_folder w) = Ok v ->
  isdir path w = false
  /\ isdir path w1 = false
  /\ fst (makedirs (folder_name cache_folder) w1) = None.
Proof.
  cbv zeta. intros H.
  rewrite (cached_user_list_keeps json_loads cache_folder w).
  destruct (fst (makedirs (folder_name cache_folder) w)) as [e|] eqn:Hm.
  - rewrite cached_user_list_spec, Hm in H. discriminate.
  - rewrite (cached_user_list_loads _ _ _ Hm) in H.
    destruct (makedirs_done _ _ Hm) as [Hdir Hd].
    destruct (isdir (todays_file cache_folder w) w) eqn:Ed; [discriminate|].
    split; [reflexivity|]. split.
    + now rewrite (Hd _ (todays_file_not_folder cache_folder w)).
    + rewrite makedirs_existing;
        [reflexivity | exact (makedirs_not_empty _ _ Hm) | exact Hdir].
Qed.

(** X24: the script never runs to its end: it stops with an exception,
    at the latest at [mkdir_p(dir_name)]; until then it has sent at most
    the one request for the member list and has written no file but
    today's cache file. *)
Theorem main_always_stops :
  forall w : world,
    let r := main json_loads json_dumps API_KEY w in
    fst r <> None
    /\ (sent (snd r) = sent w
        \/ sent (snd r) = (sent w ++ [users_list_url API_KEY])%list)
    /\ (forall other, other <> todays_file (JStr "cache") w ->
          file_get other (files (snd r)) = file_get other (files w)).
Proof.
  intros w r. subst r. unfold main.
  destruct (cached_user_list_world (JStr "cache") w)
    as (Hf1 & Hs1 & Hd1 & _ & _).
  cbv zeta in *.
  destruct (cached_user_list json_loads (JStr "cache") w)
    as [[cached|e] w1]; cbn [snd] in *.
  2:{ cbn [fst snd]. rewrite Hs1, Hf1.
      split; [discriminate | split; [now left | reflexivity]]. }
  destruct (truthy cached); cbn [negb].
  - destruct (df_user_list cached true "#ignore" true); cbn [fst snd];
      rewrite Hs1, Hf1;
      (split; [discriminate | split; [now left | reflexivity]]).
  - unfold get_user_list, requests_get.
    destruct (web w1 (users_list_url API_KEY)) as [resp|e].
    2:{ cbn [fst snd sent files set_sent]. rewrite Hs1, Hf1.
        split; [discriminate | split; [now right | reflexivity]]. }
    destruct (resp_ok resp); cbn [negb].
    2:{ cbn [fst snd sent files set_sent]. rewrite Hs1, Hf1.
        split; [discriminate | split; [now right | reflexivity]]. }
    destruct (resp_json resp) as [json_data|e].
    2:{ cbn [fst snd sent files set_sent]. rewrite Hs1, Hf1.
        split; [discriminate | split; [now right | reflexivity]]. }
    set (w2 := set_sent _ w1).
    destruct (cache_user_list_effects json_dumps json_data (JStr "cache") w2)
      as (Hs3 & _ & _ & Hother & _).
    cbv zeta in *.
    assert (E : todays_file (JStr "cache") w2 = todays_file (JStr "cache") w)
      by (apply todays_file_same_day; exact Hd1).
    rewrite E in Hother.
    assert (Hsent : sent w2 = (sent w ++ [users_list_url API_KEY])%list)
      by (subst w2; cbn [sent set_sent]; now rewrite Hs1).
    assert (Hfiles : files w2 = files w) by exact Hf1.
    destruct (cache_user_list json_dumps json_data (JStr "cache") w2)
      as [[e|] w3]; cbn [snd] in *.
    + cbn [fst snd]. rewrite Hs3, Hsent.
      split; [discriminate | split; [now right|]].
      intros other Hne. now rewrite (Hother other Hne), Hfiles.
    + destruct (df_user_list json_data true "#ignore" true); cbn [fst snd];
        rewrite Hs3, Hsent;
        (split; [discriminate | split; [now right|]]);
        intros other Hne; now rewrite (Hother other Hne), Hfiles.
Qed.

(** X25: when today's cache file holds a text that [json.loads] turns
    into a value that counts as true, the script sends no request and
    writes no file. *)
Theorem main_uses_todays_cache :
  forall (w : world) (text : string) (cached : json),
    file_get (todays_file (JStr "cache") w) (files w) = Some text ->
    json_loads text = Ok cached ->
    truthy cached = true ->
    let r := main json_loads json_dumps API_KEY w in
    sent (snd r) = sent w /\ files (snd r) = files w.
Proof.
  intros w text cached Hfile Hloads Htrue r. subst r. unfold main.
  destruct (cached_user_list_world (JStr "cache") w)
    as (Hf1 & Hs1 & _).
  cbv zeta in *.
  assert (Hv : forall v, fst (cached_user_list json_loads (JStr "cache") w) = Ok v ->
                         v = cached).
  { intros v Hv.
    destruct (fst (makedirs (folder_name (JStr "cache")) w)) as [e|] eqn:Hm.
    - rewrite cached_user_list_spec, Hm in Hv. discriminate.
    - rewrite (cached_user_list_loads _ _ _ Hm), Hfile in Hv.
      destruct (isdir _ w); [discriminate|].
      destruct (refused w _); [discriminate|]. congruence. }
  destruct (cached_user_list json_loads (JStr "cache") w)
    as [[v|e] w1]; cbn [fst snd] in *; [|auto].
  rewrite (Hv v eq_refl), Htrue. cbn [negb].
  destruct (df_user_list cached true "#ignore" true); cbn [snd]; auto.
Qed.

(** X26: when today's cache gives nothing that counts as true (no file,
    or a file whose value is empty), the request is answered ok with a
    JSON body and the writing of today's file is not refused, the script
    sends that one request and leaves the body, as [json.dumps] writes
    it, in today's cache file. *)
Theorem main_fills_todays_cache :
  forall (w : world) (cached : json) (resp : response) (json_data : json),
    fst (cached_user_list json_loads (JStr "cache") w) = Ok cached ->
    truthy cached = false ->
    web w (users_list_url API_KEY) = Ok resp ->
    resp_ok resp = true ->
    resp_json resp = Ok json_data ->
    refused w (OpenWrite (todays_file (JStr "cache") w)) = None ->
    let r := main json_loads json_dumps API_KEY w in
    sent (snd r) = (sent w ++ [users_list_url API_KEY])%list
    /\ file_get (todays_file (JStr "cache") w) (files (snd r))
       = Some (json_dumps json_data).
Proof.
  intros w cached resp json_data Hc Hfalse Hweb Hok Hjson Hwrite r. subst r.
  unfold main.
  destruct (cached_user_list_world (JStr "cache") w)
    as (Hf1 & Hs1 & Hd1 & Hr1 & Hw1).
  destruct (cached_user_list_returned (JStr "cache") w cached Hc)
    as (_ & Hnodir & Hm1).
  cbv zeta in *.
  destruct (cached_user_list json_loads (JStr "cache") w)
    as [[v|e] w1]; cbn [fst snd] in *; [|discriminate].
  injection Hc as ->. rewrite Hfalse. cbn [negb].
  unfold get_user_list, requests_get. rewrite Hw1, Hweb, Hok. cbn [negb].
  rewrite Hjson.
  set (w2 := set_sent _ w1).
  destruct (cache_user_list_effects json_dumps json_data (JStr "cache") w2)
    as (Hs3 & _ & _ & _ & Hiff & Hdone & _).
  cbv zeta in *.
  assert (E : todays_file (JStr "cache") w2 = todays_file (JStr "cache") w)
    by (apply todays_file_same_day; exact Hd1).
  rewrite E in Hiff, Hdone.
  assert (Hsaved : fst (cache_user_list json_dumps json_data (JStr "cache") w2)
                   = None).
  { apply Hiff. split; [|split; [exact Hnodir|]].
    - subst w2. now rewrite makedirs_after_request.
    - change (refused w2) with (refused w1). now rewrite Hr1. }
  destruct (Hdone Hsaved) as (Hfile & _).
  assert (Hsent : sent w2 = (sent w ++ [users_list_url API_KEY])%list)
    by (subst w2; cbn [sent set_sent]; now rewrite Hs1).
  destruct (cache_user_list json_dumps json_data (JStr "cache") w2)
    as [[e|] w3]; cbn [fst snd] in *; [discriminate|].
  destruct (df_user_list json_data true "#ignore" true); cbn [snd];
    rewrite Hs3, Hsent; auto.
Qed.

End MoreScript.

Lemma main_uses_todays_cache_witness :
  sent (snd (main (fun _ => Ok sample_data) sample_dumps "xoxp-1"
               sample_world)) = []
  /\ files (snd (main (fun _ => Ok sample_data) sample_dumps "xoxp-1"
                   sample_world)) = files sample_world.
Proof.
  exact (main_uses_todays_cache (fun _ => Ok sample_data) sample_dumps
           "xoxp-1" sample_world "{}" sample_data eq_refl eq_refl eq_refl).
Defined.

Lemma main_fills_todays_cache_witness :
  sent (snd (main sample_loads sample_dumps "xoxp-1"
               (answering_world (JArr []))))
  = ["https://slack.com/api/users.list?token=xoxp-1"]
  /\ file_get "cache/2026-11-04.json"
       (files (snd (main sample_loads sample_dumps "xoxp-1"
                      (answering_world (JArr [])))))
     = Some "[]".
Proof.
  exact (main_fills_todays_cache sample_loads sample_dumps "xoxp-1"
           (answering_world (JArr [])) JNull
           {| resp_url := "https://slack.com/api/users.list";
              resp_ok := true; resp_status_code := 200;
              resp_content := []; resp_json := Ok (JArr []) |}
           (JArr []) eq_refl eq_refl eq_refl eq_refl eq_refl eq_refl).
Defined.

(** ** The names of the card files *)

Section MoreNames.

Local Open Scope string_scope.

Lemma replace_one_char (c : ascii) (new s : string) :
  Str.replace (String c "") new s = subst_char c new s.
Proof.
  unfold Str.replace. cbn [Str.is_empty].
  induction s as [|x s IH]; [reflexivity|].
  cbn [Str.replace_from Str.prefix subst_char String.length Nat.sub].
  rewrite andb_true_r. destruct (Ascii.eqb c x); now rewrite IH.
Qed.

Lemma subst_char_app (c : ascii) (new a b : string) :
  subst_char c new (a ++ b) = subst_char c new a ++ subst_char c new b.
Proof.
  induction a as [|x a IH]; [reflexivity|]. simpl.
  destruct (Ascii.eqb c x); rewrite IH; [now rewrite append_assoc | reflexivity].
Qed.

Lemma lower_app (a b : string) : Str.lower (a ++ b) = Str.lower a ++ Str.lower b.
Proof.
  unfold Str.lower. induction a as [|x a IH]; [reflexivity|]. simpl.
  now rewrite IH.
Qed.

Lemma mangle_subst (s : string) :
  mangle s
  = subst_char ")" "" (subst_char "(" ""
      (subst_char "-" "_" (subst_char " " "_" (Str.lower s)))).
Proof. unfold mangle. now rewrite !replace_one_char. Qed.

Lemma mangle_app (a b : string) : mangle (a ++ b) = mangle a ++ mangle b.
Proof. rewrite !mangle_subst, lower_app. now rewrite !subst_char_app. Qed.

Lemma vcf_filename_mangled (dir_name name : string) :
  vcf_filename dir_name name = mangle dir_name ++ mangle name ++ ".vcf".
Proof.
  unfold vcf_filename. cbv zeta.
  change (Str.replace ")" "" (Str.replace "(" ""
            (Str.replace "-" "_" (Str.replace " " "_"
               (Str.lower (dir_name ++ name ++ ".vcf"))))))
    with (mangle (dir_name ++ name ++ ".vcf")).
  now rewrite !mangle_app.
Qed.

Lemma chars_app (a b : string) (ch : ascii) :
  In ch (chars (a ++ b)) <-> In ch (chars a) \/ In ch (chars b).
Proof.
  unfold chars. induction a as [|x a IH]; simpl; [tauto|].
  rewrite IH. tauto.
Qed.

Lemma in_subst_char (c : ascii) (new s : string) (ch : ascii) :
  In ch (chars (subst_char c new s)) ->
  (In ch (chars s) /\ ch <> c) \/ In ch (chars new).
Proof.
  induction s as [|x s IH]; simpl; [tauto|].
  destruct (Ascii.eqb c x) eqn:E.
  - intros H. apply chars_app in H. destruct H as [H|H]; [now right|].
    destruct (IH H) as [[H1 H2]|H1]; [left | now right].
    split; [now right | exact H2].
  - apply Ascii.eqb_neq in E. intros [<-|H].
    + left. split; [now left | congruence].
    + destruct (IH H) as [[H1 H2]|H1]; [left | now right].
      split; [now right | exact H2].
Qed.

Lemma lower_char_idempotent (x : ascii) :
  Str.lower_char (Str.lower_char x) = Str.lower_char x.
Proof.
  destruct x as [[|] [|] [|] [|] [|] [|] [|] [|]]; vm_compute; reflexivity.
Qed.

Lemma in_lower (s : string) (ch : ascii) :
  In ch (chars (Str.lower s)) -> Str.lower_char ch = ch.
Proof.
  unfold Str.lower. induction s as [|x s IH]; simpl; [tauto|].
  intros [<-|H]; [apply lower_char_idempotent | auto].
Qed.

(** X28: no name of a card file has a blank, a hyphen, a bracket or an
    ASCII capital in it. *)
Theorem vcf_filename_characters :
  forall (dir_name real_name_normalized : string) (ch : ascii),
    In ch (chars (vcf_filename dir_name real_name_normalized)) ->
    ch <> " "%char /\ ch <> "-"%char /\ ch <> "("%char /\ ch <> ")"%char
    /\ Str.lower_char ch = ch.
Proof.
  intros dir_name name ch H.
  assert (Hm : forall s, In ch (chars (mangle s)) ->
                ch <> " "%char /\ ch <> "-"%char /\ ch <> "("%char
                /\ ch <> ")"%char /\ Str.lower_char ch = ch).
  { intros s Hs. rewrite mangle_subst in Hs.
    apply in_subst_char in Hs. destruct Hs as [[Hs N4]|[]].
    apply in_subst_char in Hs. destruct Hs as [[Hs N3]|[]].
    apply in_subst_char in Hs. destruct Hs as [[Hs N2]|[<-|[]]].
    - apply in_subst_char in Hs. destruct Hs as [[Hs N1]|[<-|[]]].
      + apply in_lower in Hs. auto.
      + repeat split; discriminate || reflexivity.
    - repeat split; discriminate || reflexivity. }
  rewrite vcf_filename_mangled in H.
  apply chars_app in H. destruct H as [H|H]; [exact (Hm dir_name H)|].
  apply chars_app in H. destruct H as [H|H]; [exact (Hm name H)|].
  simpl in H.
  repeat (destruct H as [<-|H];
          [repeat split; discriminate || reflexivity|]).
  destruct H.
Qed.

Lemma vcf_filename_characters_witness :
  "_"%char <> " "%char /\ "_"%char <> "-"%char /\ "_"%char <> "("%char
  /\ "_"%char <> ")"%char /\ Str.lower_char "_" = "_"%char.
Proof.
  apply (vcf_filename_characters "Cards/" "O'Brien (Team)" "_"%char).
  vm_compute. auto 20.
Defined.

End MoreNames.

(** ** Directories *)

Section MoreDirectories.

Local Open Scope string_scope.

(** What [mkdir_p] comes to: the [EEXIST] of a directory that is there
    is the one error it swallows. *)
Lemma mkdir_p_cases (path : string) (w : world) :
  mkdir_p path w
  = if Str.is_empty path then (Some FileNotFoundError, w)
    else if isdir path w then (None, w)
    else if isfile path w then (Some FileExistsError, w)
    else
      match refused w (Makedirs path) with
      | Some e => (Some e, w)
      | None => (None, set_dirs (dirs w ++ [path])%list w)
      end.
Proof.
  unfold mkdir_p, os_makedirs.
  destruct (Str.is_empty path); [reflexivity|].
  destruct (isdir path w) eqn:Ed; cbn [orb]; [now rewrite Ed|].
  destruct (isfile path w); cbn [orb]; [now rewrite Ed|].
  destruct (refused w (Makedirs path)) as [e|]; [|reflexivity].
  destruct e; try reflexivity. now rewrite Ed.
Qed.

(** X30: [mkdir_p] again, on what a first [mkdir_p] left, ends as the
    first did and changes nothing more. *)
Theorem mkdir_p_twice :
  forall (path : string) (w : world),
    mkdir_p path (snd (mkdir_p path w)) = mkdir_p path w.
Proof.
  intros path w. rewrite (mkdir_p_cases path w).
  destruct (Str.is_empty path) eqn:Ee;
    [cbn [snd]; now rewrite mkdir_p_cases, Ee|].
  destruct (isdir path w) eqn:Ed;
    [cbn [snd]; now rewrite mkdir_p_cases, Ee, Ed|].
  destruct (isfile path w) eqn:Ef;
    [cbn [snd]; now rewrite mkdir_p_cases, Ee, Ed, Ef|].
  destruct (refused w (Makedirs path)) as [e|] eqn:Er;
    [cbn [snd]; now rewrite mkdir_p_cases, Ee, Ed, Ef, Er|].
  cbn [snd]. rewrite mkdir_p_cases, Ee, isdir_after_add, String.eqb_refl.
  now rewrite orb_true_r.
Qed.

End MoreDirectories.
